(** * Reflection / metaclass benchmark programs: serializers, benchmark
    statistics and property binding

  Shallow embedding of
  - [implementation/comprehensive_benchmark.cpp]
  - [implementation/working_reflection_demo.cpp]
  - [reflection_metaclasses_paper/implementation/mock_reflection_demo.cpp]
  - [implementation/benchmarks/binding_traditional.cpp] and
    [reflection_metaclasses_paper/implementation/benchmarks/binding_reflection.cpp]

  C++ [double] is IEEE binary64, modelled by [spec_float] with the
  correctly rounded operations of [SpecFloat] at precision 53.
  [std::string] is [string] (a sequence of bytes), [int] and [size_t] are
  [Z] and [nat].  [std::ostringstream] is a record holding the format
  flags and the buffer; [operator<<] is a type class with one instance per
  inserted type. *)

From Stdlib Require Import ZArith List String Ascii Bool Lia.
From Stdlib Require Decimal DecimalString.
From Stdlib Require Import SpecFloat.
From Equations Require Import Equations.
Import ListNotations.

Local Open Scope string_scope.
Local Open Scope Z_scope.

(** ** IEEE binary64 *)

Definition double : Type := spec_float.

Module Double.

Definition prec : Z := 53.
Definition emax : Z := 1024.

Definition add (x y : double) : double := SFadd prec emax x y.
Definition sub (x y : double) : double := SFsub prec emax x y.
Definition mul (x y : double) : double := SFmul prec emax x y.
Definition div (x y : double) : double := SFdiv prec emax x y.
Definition sqrt (x : double) : double := SFsqrt prec emax x.
Definition ltb (x y : double) : bool := SFltb x y.
Definition leb (x y : double) : bool := SFleb x y.

(** Conversion of an integer ([int], [long], [size_t]) to [double],
    rounding to nearest even when the integer has more than 53 bits. *)
Definition of_Z (z : Z) : double := binary_normalize prec emax z 0 false.

Definition zero : double := S754_zero false.

Definition is_nan (x : double) : bool :=
  match x with S754_nan => true | _ => false end.

Definition is_finite (x : double) : bool :=
  match x with S754_zero _ | S754_finite _ _ _ => true | _ => false end.

End Double.

(** ** Text of numbers, as [printf] produces it

  libstdc++ formats a [double] through [printf] with ["%.*f"] when the
  stream is [std::fixed] and with ["%.*g"] when no float-field flag is set;
  the precision is the stream's.  Every finite binary64 value is an exact
  decimal fraction: [m * 2^e = (m * 5^(-e)) * 10^e] for [e < 0].  Rounding
  to the printed digits is to nearest, ties to even, on that exact value.
  [spec_float] has one NaN, without a sign bit, where [printf] writes
  [nan] or [-nan] by the sign bit of the value (the 0.0 / 0.0 of x86-64
  has it set).  The token [nan] below stands for either: what is proved of
  a printed text is proved of values that are not NaN, or compares two
  texts of the same value. *)

Module Printf.

Definition digit_char (d : Z) : ascii := ascii_of_nat (48 + Z.to_nat d).

Definition is_digit (c : ascii) : bool :=
  let n := nat_of_ascii c in (Nat.leb 48 n && Nat.leb n 57)%bool.

(** Decimal digits of a non-negative integer, ["0"] for zero. *)
Definition dec_string (z : Z) : string :=
  DecimalString.NilZero.string_of_uint (N.to_uint (Z.to_N z)).

(** [operator<<(int)]: decimal digits with a leading minus sign. *)
Definition int_string (z : Z) : string :=
  DecimalString.NilZero.string_of_int (Z.to_int z).

Definition ndigits (z : Z) : Z :=
  Z.of_nat (Decimal.nb_digits (N.to_uint (Z.to_N z))).

(** The exact decimal [(D, n)] of a finite magnitude: [m * 2^e = D / 10^n]. *)
Definition exact_decimal (m : positive) (e : Z) : Z * Z :=
  if 0 <=? e then (Zpos m * 2 ^ e, 0) else (Zpos m * 5 ^ (- e), - e).

(** [a / b] rounded to the nearest integer, ties to even ([b > 0]). *)
Definition rne_div (a b : Z) : Z :=
  let q := a / b in
  let r := a mod b in
  match 2 * r ?= b with
  | Lt => q
  | Gt => q + 1
  | Eq => if Z.even q then q else q + 1
  end.

(** [D / 10^n] in units of [10^(-p)], rounded. *)
Definition round_to_places (D n p : Z) : Z :=
  if n <=? p then D * 10 ^ (p - n) else rne_div D (10 ^ (n - p)).

(** The last [p] decimal digits of [N], most significant first. *)
Definition frac_digits (p : nat) (N : Z) : list ascii :=
  map (fun i => digit_char ((N / 10 ^ Z.of_nat (p - 1 - i)) mod 10)) (seq 0 p).

Fixpoint strip_zeros_rev (l : list ascii) : list ascii :=
  match l with
  | c :: r => if Ascii.eqb c "0" then strip_zeros_rev r else l
  | [] => []
  end.

Definition strip_trailing_zeros (l : list ascii) : list ascii :=
  List.rev (strip_zeros_rev (List.rev l)).

Definition sign_string (s : bool) : string := if s then "-" else EmptyString.

Definition point_frac (frac : list ascii) : string :=
  match frac with
  | [] => EmptyString
  | _ => "." ++ string_of_list_ascii frac
  end.

(** ["%.{p}f"] *)
Definition fixed (p : nat) (x : double) : string :=
  match x with
  | S754_nan => "nan"
  | S754_infinity s => sign_string s ++ "inf"
  | S754_zero s =>
      sign_string s ++ "0" ++ point_frac (frac_digits p 0)
  | S754_finite s m e =>
      let '(D, n) := exact_decimal m e in
      let N := round_to_places D n (Z.of_nat p) in
      sign_string s ++ dec_string (N / 10 ^ Z.of_nat p)
        ++ point_frac (frac_digits p N)
  end.

Definition exponent_string (X : Z) : string :=
  (if X <? 0 then "-" else "+")
    ++ (if Z.abs X <? 10 then "0" else EmptyString) ++ dec_string (Z.abs X).

(** ["%.{P}g"]: [P] significant digits, trailing zeros removed; the style
    is fixed when the decimal exponent [X] of the rounded value satisfies
    [-4 <= X < P] and scientific otherwise. *)
Definition general (P0 : nat) (x : double) : string :=
  let P := Z.of_nat (if Nat.eqb P0 0 then 1%nat else P0) in
  match x with
  | S754_nan => "nan"
  | S754_infinity s => sign_string s ++ "inf"
  | S754_zero s => sign_string s ++ "0"
  | S754_finite s m e =>
      let '(D, n) := exact_decimal m e in
      let L := ndigits D in
      let N0 := if L <=? P then D * 10 ^ (P - L) else rne_div D (10 ^ (L - P)) in
      let k := L - 1 - n in
      let '(N, X) := if N0 =? 10 ^ P then (10 ^ (P - 1), k + 1) else (N0, k) in
      if ((-4 <=? X) && (X <? P))%bool then
        let p := P - 1 - X in
        sign_string s ++ dec_string (N / 10 ^ p)
          ++ point_frac (strip_trailing_zeros (frac_digits (Z.to_nat p) N))
      else
        sign_string s ++ dec_string (N / 10 ^ (P - 1))
          ++ point_frac (strip_trailing_zeros (frac_digits (Z.to_nat (P - 1)) N))
          ++ "e" ++ exponent_string X
  end.

End Printf.


(** A decimal literal of the source, [n / d] with [d] a power of ten and
    both below [2^53], read as the nearest binary64 value ([lit 1005 1000]
    is the double 1.005). *)
Definition lit (n d : Z) : double := Double.div (Double.of_Z n) (Double.of_Z d).

(** ** String literals

  A C++ literal is transcribed with an apostrophe where the source has an
  escaped quotation mark; [cstr] puts the quotation marks back.  No literal
  of the source holds an apostrophe of its own. *)

Definition dquote : ascii := ascii_of_nat 34.

Fixpoint cstr (s : string) : string :=
  match s with
  | EmptyString => EmptyString
  | String c r => String (if Ascii.eqb c "'" then dquote else c) (cstr r)
  end.

(** ** [std::ostringstream]

  The float-field flag and the precision are sticky: once set on a stream
  they apply to every later [double] inserted in that stream.  A stream
  starts with no float-field flag and precision 6.  The record holds the
  formatting state the program changes, the float-field flag ([std::fixed]
  is the one manipulator of it used) and the precision; what else bears on
  the text of a number (showpos, showpoint, uppercase, the width, the fill,
  the locale) is at its default in every stream of the program,
  [std::cout] included.  [std::boolalpha], which the two demos set on
  [std::cout] in their last lines, bears on [bool] values only. *)

Module Ostream.

Inductive floatfield : Type := ff_none | ff_fixed.

Record ostringstream : Type := mk_ostringstream
  { os_floatfield : floatfield; os_precision : nat; os_buf : string }.

Definition fresh : ostringstream := mk_ostringstream ff_none 6 EmptyString.

Definition write (os : ostringstream) (s : string) : ostringstream :=
  mk_ostringstream (os_floatfield os) (os_precision os) (os_buf os ++ s).

(** [std::fixed] and [std::setprecision(n)]. *)
Inductive manipulator : Type := std_fixed | std_setprecision (n : nat).

Definition double_text (os : ostringstream) (x : double) : string :=
  match os_floatfield os with
  | ff_fixed => Printf.fixed (os_precision os) x
  | ff_none => Printf.general (os_precision os) x
  end.

Definition apply_manipulator (os : ostringstream) (m : manipulator) : ostringstream :=
  match m with
  | std_fixed => mk_ostringstream ff_fixed (os_precision os) (os_buf os)
  | std_setprecision n => mk_ostringstream (os_floatfield os) n (os_buf os)
  end.

(** [operator<<], one overload per inserted type. *)
Class Insertable (A : Type) : Type := insert : ostringstream -> A -> ostringstream.

#[export] Instance insert_string : Insertable string := write.
#[export] Instance insert_int : Insertable Z :=
  fun os z => write os (Printf.int_string z).
#[export] Instance insert_double : Insertable double :=
  fun os x => write os (double_text os x).
#[export] Instance insert_manipulator : Insertable manipulator := apply_manipulator.

Definition str (os : ostringstream) : string := os_buf os.

End Ostream.

Import Ostream.

Declare Scope stream_scope.
Delimit Scope stream_scope with stream.
Notation "os << x" := (insert os x) (at level 50, left associativity) : stream_scope.

(** [b ? 'true' : 'false'] *)
Definition bool_text (b : bool) : string := if b then "true" else "false".

(** ** The measured clock

  [std::chrono::high_resolution_clock::now()] is an oracle: its n-th call
  returns [clk n] nanoseconds.  A time point and a duration hold a signed
  64-bit count: the difference of two readings is the two's complement
  difference, which wraps when the readings are more than [2^63]
  nanoseconds apart.  [duration_cast<microseconds>] truncates toward zero,
  and [duration.count() / 1000.0] converts the count to [double] before
  dividing. *)

Definition clock : Type := nat -> Z.

Definition INT64_MAX : Z := 2 ^ 63 - 1.

(** The signed 64-bit value congruent to [z]. *)
Definition wrap64 (z : Z) : Z := (z + 2 ^ 63) mod 2 ^ 64 - 2 ^ 63.

(** [end - start] of two time points. *)
Definition duration_ns (start_time end_time : Z) : Z :=
  wrap64 (end_time - start_time).

Definition duration_cast_microseconds (ns : Z) : Z := Z.quot ns 1000.

Definition elapsed_ms (start_time end_time : Z) : double :=
  Double.div
    (Double.of_Z (duration_cast_microseconds (duration_ns start_time end_time)))
    (lit 1000 1).

(** What a run of the harness can end in.  The error kind is the one the
    specification names; no statement of the sources throws it. *)
Inductive error : Type := InvalidConfigurationError.

Inductive outcome (A : Type) : Type :=
  | Completed (a : A)
  | Failed (e : error).
Arguments Completed {A} a.
Arguments Failed {A} e.

(** ** implementation/comprehensive_benchmark.cpp *)

Module Comprehensive.

Local Open Scope stream_scope.

Module Person.
Record t : Type := make
  { name : string; age : Z; salary : double; department : string; is_active : bool }.
(** [Person()] *)
Definition default : t := make EmptyString 0 Double.zero EmptyString true.
End Person.

Module Product.
Record t : Type := make
  { name : string; price : double; quantity : Z; category : string; rating : double }.
Definition default : t := make EmptyString Double.zero 0 EmptyString Double.zero.
End Product.

Module Order.
Record t : Type := make
  { order_id : Z; customer_name : string; items : list Product.t;
    total_amount : double; order_date : string }.
(** [Order()]: the item vector starts empty. *)
Definition default : t := make 0 EmptyString [] Double.zero EmptyString.
End Order.

(** *** namespace mock_meta *)

Inductive type : Type := TPerson | TProduct | TOrder.

(** [mock_meta::info] without [type_size], which is [sizeof(T)]. *)
Record info : Type := mk_info
  { type_name : string; is_class_type : bool; member_count : nat }.

Definition reflexpr (T : type) : info :=
  match T with
  | TPerson => mk_info "Person" true 5
  | TProduct => mk_info "Product" true 5
  | TOrder => mk_info "Order" true 5
  end.

Definition get_member_names (T : type) : list string :=
  match T with
  | TPerson => ["name"; "age"; "salary"; "department"; "is_active"]
  | TProduct => ["name"; "price"; "quantity"; "category"; "rating"]
  | TOrder => ["order_id"; "customer_name"; "items"; "total_amount"; "order_date"]
  end.

(** *** namespace enhanced_serialization *)

(** [ReflectionSerializer<Person>::serialize] *)
Definition ReflectionSerializer_Person_serialize (obj : Person.t) : string :=
  let json := fresh in
  let json :=
    json << cstr "{'name':'" << Person.name obj << cstr "',"
         << cstr "'age':" << Person.age obj << ","
         << cstr "'salary':" << std_fixed << std_setprecision 2 << Person.salary obj << ","
         << cstr "'department':'" << Person.department obj << cstr "',"
         << cstr "'is_active':" << bool_text (Person.is_active obj) << "}" in
  str json.

(** [ReflectionSerializer<Product>::serialize] *)
Definition ReflectionSerializer_Product_serialize (obj : Product.t) : string :=
  let json := fresh in
  let json :=
    json << cstr "{'name':'" << Product.name obj << cstr "',"
         << cstr "'price':" << std_fixed << std_setprecision 2 << Product.price obj << ","
         << cstr "'quantity':" << Product.quantity obj << ","
         << cstr "'category':'" << Product.category obj << cstr "',"
         << cstr "'rating':" << Product.rating obj << "}" in
  str json.

(** The loop of [ReflectionSerializer<Order>::serialize]: [rest] is
    [obj.items] from index [i] on. *)
Fixpoint serialize_items (rest : list Product.t) (i : nat) (json : ostringstream)
  : ostringstream :=
  match rest with
  | [] => json
  | item :: rest' =>
      let json := if Nat.ltb 0 i then json << "," else json in
      let json := json << ReflectionSerializer_Product_serialize item in
      serialize_items rest' (S i) json
  end.

(** [ReflectionSerializer<Order>::serialize] *)
Definition ReflectionSerializer_Order_serialize (obj : Order.t) : string :=
  let json := fresh in
  let json :=
    json << cstr "{'order_id':" << Order.order_id obj << ","
         << cstr "'customer_name':'" << Order.customer_name obj << cstr "',"
         << cstr "'total_amount':" << Order.total_amount obj << ","
         << cstr "'order_date':'" << Order.order_date obj << cstr "',"
         << cstr "'items':[" in
  let json := serialize_items (Order.items obj) 0 json in
  let json := json << "]}" in
  str json.

(** *** namespace advanced_benchmarks *)

Record BenchmarkResult : Type := mk_BenchmarkResult
  { min_time_ms : double; max_time_ms : double; avg_time_ms : double;
    std_dev_ms : double; iterations : nat; data_size : nat }.

(** [class AdvancedBenchmark]: its only member is [measurements_]. *)
Record AdvancedBenchmark : Type := mk_AdvancedBenchmark
  { measurements_ : list double }.

Definition new_benchmark : AdvancedBenchmark := mk_AdvancedBenchmark [].

Definition clear (b : AdvancedBenchmark) : AdvancedBenchmark :=
  mk_AdvancedBenchmark [].

Definition add_measurement (b : AdvancedBenchmark) (time_ms : double)
  : AdvancedBenchmark :=
  mk_AdvancedBenchmark (measurements_ b ++ [time_ms]).

(** [std::min_element]: the first element no later element is [<] than.
    [smallest] is the candidate so far. *)
Fixpoint min_element_from (smallest : double) (rest : list double) : double :=
  match rest with
  | [] => smallest
  | x :: rest' =>
      if Double.ltb x smallest then min_element_from x rest'
      else min_element_from smallest rest'
  end.

(** [std::max_element]: the candidate changes when it is [<] the element. *)
Fixpoint max_element_from (largest : double) (rest : list double) : double :=
  match rest with
  | [] => largest
  | x :: rest' =>
      if Double.ltb largest x then max_element_from x rest'
      else max_element_from largest rest'
  end.

(** [std::accumulate(first, last, init)] *)
Fixpoint accumulate (l : list double) (init : double) : double :=
  match l with
  | [] => init
  | x :: rest => accumulate rest (Double.add init x)
  end.

(** [for (double time : measurements_) variance += (time - avg) * (time - avg);] *)
Fixpoint variance_loop (l : list double) (avg variance : double) : double :=
  match l with
  | [] => variance
  | time :: rest =>
      variance_loop rest avg
        (Double.add variance (Double.mul (Double.sub time avg) (Double.sub time avg)))
  end.

(** [AdvancedBenchmark::get_result] *)
Definition get_result (b : AdvancedBenchmark) (data_size : nat) : BenchmarkResult :=
  match measurements_ b with
  | [] => mk_BenchmarkResult Double.zero Double.zero Double.zero Double.zero 0 data_size
  | first :: rest =>
      let size := Double.of_Z (Z.of_nat (List.length (measurements_ b))) in
      let min_it := min_element_from first rest in
      let max_it := max_element_from first rest in
      let sum := accumulate (measurements_ b) Double.zero in
      let avg := Double.div sum size in
      let variance := variance_loop (measurements_ b) avg Double.zero in
      let variance := Double.div variance size in
      let std_dev := Double.sqrt variance in
      mk_BenchmarkResult min_it max_it avg std_dev
        (List.length (measurements_ b)) data_size
  end.

(** [manual_serialize<Person>] *)
Definition manual_serialize_Person (obj : Person.t) : string :=
  let json := fresh in
  let json :=
    json << cstr "{'name':'" << Person.name obj << cstr "',"
         << cstr "'age':" << Person.age obj << ","
         << cstr "'salary':" << Person.salary obj << ","
         << cstr "'department':'" << Person.department obj << cstr "',"
         << cstr "'is_active':" << bool_text (Person.is_active obj) << "}" in
  str json.

(** [manual_serialize<Product>] *)
Definition manual_serialize_Product (obj : Product.t) : string :=
  let json := fresh in
  let json :=
    json << cstr "{'name':'" << Product.name obj << cstr "',"
         << cstr "'price':" << Product.price obj << ","
         << cstr "'quantity':" << Product.quantity obj << ","
         << cstr "'category':'" << Product.category obj << cstr "',"
         << cstr "'rating':" << Product.rating obj << "}" in
  str json.

(** The overhead line of [benchmark_serialization_comprehensive]. *)
Definition overhead_percent (reflection_avg manual_avg : double) : double :=
  if Double.ltb Double.zero manual_avg
  then Double.mul (Double.sub (Double.div reflection_avg manual_avg) (lit 1 1))
                  (lit 100 1)
  else Double.zero.

(** The timing loop [for (int run = 0; run < runs; ++run)]: [n] runs are
    left and [calls] is the number of clock readings made so far.  Between
    the two readings of a pair every object is serialized and the text is
    discarded, which changes nothing but the time read. *)
Fixpoint timing_loop (clk : clock) (n calls : nat)
    (reflection_bench manual_bench : AdvancedBenchmark)
  : AdvancedBenchmark * AdvancedBenchmark :=
  match n with
  | O => (reflection_bench, manual_bench)
  | S n' =>
      let start_time := clk calls in
      let end_time := clk (calls + 1)%nat in
      let reflection_bench :=
        add_measurement reflection_bench (elapsed_ms start_time end_time) in
      let start_time := clk (calls + 2)%nat in
      let end_time := clk (calls + 3)%nat in
      let manual_bench :=
        add_measurement manual_bench (elapsed_ms start_time end_time) in
      timing_loop clk n' (calls + 4)%nat reflection_bench manual_bench
  end.

Record Comparison : Type := mk_Comparison
  { reflection_result : BenchmarkResult; manual_result : BenchmarkResult;
    overhead : double }.

(** [benchmark_serialization_comprehensive<T>(objects, runs)]: the two
    results and the overhead it prints are returned.  The loop body runs
    [runs] times, no time when [runs <= 0]. *)
Definition benchmark_serialization_comprehensive {T : Type}
    (clk : clock) (objects : list T) (runs : Z) : outcome Comparison :=
  let '(reflection_bench, manual_bench) :=
    timing_loop clk (Z.to_nat runs) 0 new_benchmark new_benchmark in
  let reflection_result := get_result reflection_bench (List.length objects) in
  let manual_result := get_result manual_bench (List.length objects) in
  let overhead :=
    overhead_percent (avg_time_ms reflection_result) (avg_time_ms manual_result) in
  Completed (mk_Comparison reflection_result manual_result overhead).

End Comprehensive.

(** ** The three-field [Person] and [Company] of the two demo programs *)

Module Demo.

Module Person.
Record t : Type := make { name : string; age : Z; salary : double }.
Definition default : t := make EmptyString 0 Double.zero.
End Person.

Module Company.
Record t : Type := make
  { name : string; employees : list Person.t; revenue : double }.
Definition default : t := make EmptyString [] Double.zero.
End Company.

(** [PerformanceBenchmark]: [start] reads the clock, [stop_and_get_ms] reads
    it again and returns the elapsed milliseconds. *)
Definition stop_and_get_ms (start_time end_time : Z) : double :=
  elapsed_ms start_time end_time.

End Demo.

(** ** implementation/working_reflection_demo.cpp *)

Module WorkingDemo.

Import Demo.
Local Open Scope stream_scope.

Inductive type : Type := TPerson | TCompany.

Definition get_member_names (T : type) : list string :=
  match T with
  | TPerson => ["name"; "age"; "salary"]
  | TCompany => ["name"; "employees"; "revenue"]
  end.

(** [ReflectionSerializer<Person>::serialize] *)
Definition ReflectionSerializer_Person_serialize (obj : Person.t) : string :=
  let json := fresh in
  let json :=
    json << cstr "{'name':'" << Person.name obj << cstr "',"
         << cstr "'age':" << Person.age obj << ","
         << cstr "'salary':" << Person.salary obj << "}" in
  str json.

Fixpoint serialize_employees (rest : list Person.t) (i : nat) (json : ostringstream)
  : ostringstream :=
  match rest with
  | [] => json
  | employee :: rest' =>
      let json := if Nat.ltb 0 i then json << "," else json in
      let json := json << ReflectionSerializer_Person_serialize employee in
      serialize_employees rest' (S i) json
  end.

(** [ReflectionSerializer<Company>::serialize] *)
Definition ReflectionSerializer_Company_serialize (obj : Company.t) : string :=
  let json := fresh in
  let json :=
    json << cstr "{'name':'" << Company.name obj << cstr "',"
         << cstr "'revenue':" << Company.revenue obj << ","
         << cstr "'employees':[" in
  let json := serialize_employees (Company.employees obj) 0 json in
  let json := json << "]}" in
  str json.

(** The manual serialization written out in [benchmark_serialization]. *)
Definition manual_serialize_Person (person : Person.t) : string :=
  let json := fresh in
  let json :=
    json << cstr "{'name':'" << Person.name person << cstr "',"
         << cstr "'age':" << Person.age person << ","
         << cstr "'salary':" << Person.salary person << "}" in
  str json.

(** [double overhead = (manual_time > 0) ? ... : 0.0;] *)
Definition overhead_percent (reflection_time manual_time : double) : double :=
  if Double.ltb Double.zero manual_time
  then Double.mul (Double.sub (Double.div reflection_time manual_time) (lit 1 1))
                  (lit 100 1)
  else Double.zero.

(** [benchmarks::benchmark_serialization]: the clock is read four times;
    the times and the overhead it prints are returned. *)
Definition benchmark_serialization (clk : clock) (people : list Person.t)
    (iterations : Z) : double * double * double :=
  let reflection_time := stop_and_get_ms (clk 0%nat) (clk 1%nat) in
  let manual_time := stop_and_get_ms (clk 2%nat) (clk 3%nat) in
  (reflection_time, manual_time, overhead_percent reflection_time manual_time).

End WorkingDemo.

(** ** reflection_metaclasses_paper/implementation/mock_reflection_demo.cpp *)

Module PaperDemo.

Import Demo.
Local Open Scope stream_scope.

Section Generic.

(** A class type that is neither [Person] nor [Company]. *)
Variable Other : Type.

Inductive type : Type := TPerson | TCompany | TOther.

Definition instance (T : type) : Type :=
  match T with
  | TPerson => Person.t
  | TCompany => Company.t
  | TOther => Other
  end.

(** [mock_meta::info] without [type_size]. *)
Record info : Type := mk_info
  { type_name : string; is_class_type : bool; member_count : nat }.

Definition reflexpr (T : type) : info :=
  match T with
  | TPerson => mk_info "Person" true 3
  | TCompany => mk_info "Company" true 3
  | TOther => mk_info "Unknown" true 0
  end.

Definition get_member_names (T : type) : list string :=
  match T with
  | TPerson => ["name"; "age"; "salary"]
  | TCompany => ["name"; "employees"; "revenue"]
  | TOther => []
  end.

(** The [Person] branch of [ReflectionSerializer<T>::serialize], with the
    braces the template writes around every branch. *)
Definition serialize_Person (obj : Person.t) : string :=
  let json := fresh in
  let json := json << "{" in
  let json :=
    json << cstr "'name':'" << Person.name obj << cstr "',"
         << cstr "'age':" << Person.age obj << ","
         << cstr "'salary':" << Person.salary obj in
  let json := json << "}" in
  str json.

(** [ReflectionSerializer<T>::serialize]: the branches are chosen by
    [if constexpr] on [T]; a type that is neither gets no field text.  In
    the [Company] branch the loop calls the unqualified [serialize] on an
    employee, which inside [ReflectionSerializer<Company>] is
    [serialize(const Company&)] given a [Person]: the instantiation at
    [Company] is ill-formed, there is no such function and no text of it,
    which is [None]. *)
Definition ReflectionSerializer_serialize (T : type)
  : instance T -> option string :=
  match T return instance T -> option string with
  | TPerson => fun obj => Some (serialize_Person obj)
  | TCompany => fun _ => None
  | TOther => fun _ =>
      let json := fresh in
      let json := json << "{" in
      let json := json << "}" in
      Some (str json)
  end.

End Generic.

(** [std::cout << 'Overhead: ' << ((reflection_time / manual_time - 1.0) * 100.0)] *)
Definition overhead_percent (reflection_time manual_time : double) : double :=
  Double.mul (Double.sub (Double.div reflection_time manual_time) (lit 1 1))
             (lit 100 1).

(** [benchmarks::benchmark_serialization<T>] *)
Definition benchmark_serialization {T : Type} (clk : clock) (objects : list T)
    (iterations : Z) : double * double * double :=
  let reflection_time := stop_and_get_ms (clk 0%nat) (clk 1%nat) in
  let manual_time := stop_and_get_ms (clk 2%nat) (clk 3%nat) in
  (reflection_time, manual_time, overhead_percent reflection_time manual_time).

End PaperDemo.

(** ** benchmarks/binding_traditional.cpp and benchmarks/binding_reflection.cpp

  Both files declare [DataModel] with the same three setters and the same
  three callback vectors.  A callback is an opaque [std::function<void()>];
  calling it is an event, and a setter returns the events it caused in the
  order they happened.  The callbacks of the benchmarks are empty lambdas:
  none touches the model it is bound to. *)

Module Binding.

Section DataModel.

Variable callback : Type.

Record DataModel : Type := mk_DataModel
  { name : string; value : Z; active : bool;
    name_changed_callbacks : list callback;
    value_changed_callbacks : list callback;
    active_changed_callbacks : list callback }.

(** [for (auto& callback : callbacks) callback();] after [trace]. *)
Fixpoint call_each (callbacks : list callback) (trace : list callback) : list callback :=
  match callbacks with
  | [] => trace
  | cb :: rest => call_each rest (trace ++ [cb])
  end.

Definition set_name (m : DataModel) (new_name : string) : DataModel * list callback :=
  if negb (String.eqb (name m) new_name) then
    let m' := mk_DataModel new_name (value m) (active m)
                (name_changed_callbacks m) (value_changed_callbacks m)
                (active_changed_callbacks m) in
    (m', call_each (name_changed_callbacks m') [])
  else (m, []).

Definition set_value (m : DataModel) (new_value : Z) : DataModel * list callback :=
  if negb (Z.eqb (value m) new_value) then
    let m' := mk_DataModel (name m) new_value (active m)
                (name_changed_callbacks m) (value_changed_callbacks m)
                (active_changed_callbacks m) in
    (m', call_each (value_changed_callbacks m') [])
  else (m, []).

Definition set_active (m : DataModel) (new_active : bool) : DataModel * list callback :=
  if negb (Bool.eqb (active m) new_active) then
    let m' := mk_DataModel (name m) (value m) new_active
                (name_changed_callbacks m) (value_changed_callbacks m)
                (active_changed_callbacks m) in
    (m', call_each (active_changed_callbacks m') [])
  else (m, []).

Definition bind_name_changed (m : DataModel) (cb : callback) : DataModel :=
  mk_DataModel (name m) (value m) (active m)
    (name_changed_callbacks m ++ [cb]) (value_changed_callbacks m)
    (active_changed_callbacks m).

Definition bind_value_changed (m : DataModel) (cb : callback) : DataModel :=
  mk_DataModel (name m) (value m) (active m)
    (name_changed_callbacks m) (value_changed_callbacks m ++ [cb])
    (active_changed_callbacks m).

Definition bind_active_changed (m : DataModel) (cb : callback) : DataModel :=
  mk_DataModel (name m) (value m) (active m)
    (name_changed_callbacks m) (value_changed_callbacks m)
    (active_changed_callbacks m ++ [cb]).

End DataModel.

Arguments mk_DataModel {callback}.
Arguments name {callback}.
Arguments value {callback}.
Arguments active {callback}.
Arguments name_changed_callbacks {callback}.
Arguments value_changed_callbacks {callback}.
Arguments active_changed_callbacks {callback}.
Arguments call_each {callback}.
Arguments set_name {callback}.
Arguments set_value {callback}.
Arguments set_active {callback}.
Arguments bind_name_changed {callback}.
Arguments bind_value_changed {callback}.
Arguments bind_active_changed {callback}.

End Binding.

(** * More of the programs *)

(** ** comprehensive_benchmark.cpp: the mock deserializer and the report *)

Module Report.

Local Open Scope stream_scope.

(** [ReflectionSerializer<Person>::deserialize]: the text is not read. *)
Definition ReflectionSerializer_Person_deserialize (json : string)
  : Comprehensive.Person.t :=
  Comprehensive.Person.make "Mock" 30 (lit 50000 1) "IT" true.

(** The newline that [std::endl] and the escape of a literal insert. *)
Definition endl : string := String (ascii_of_nat 10) EmptyString.

(** [operator<<(size_t)] *)
#[export] Instance insert_size_t : Insertable nat :=
  fun os n => write os (Printf.int_string (Z.of_nat n)).

(** [result.data_size / (result.avg_time_ms / 1000.0)] *)
Definition throughput (result : Comprehensive.BenchmarkResult) : double :=
  Double.div (Double.of_Z (Z.of_nat (Comprehensive.data_size result)))
             (Double.div (Comprehensive.avg_time_ms result) (lit 1000 1)).

(** [AdvancedBenchmark::print_result]; [cout] is [std::cout], whose format
    flags outlive the call. *)
Definition print_result (cout : ostringstream) (test_name : string)
    (result : Comprehensive.BenchmarkResult) : ostringstream :=
  let cout := cout << endl << test_name << " Results:" << endl in
  let cout := cout << "  Data size: " << Comprehensive.data_size result
                   << " objects" << endl in
  let cout := cout << "  Iterations: " << Comprehensive.iterations result << endl in
  let cout := cout << "  Min time: " << std_fixed << std_setprecision 3
                   << Comprehensive.min_time_ms result << " ms" << endl in
  let cout := cout << "  Max time: " << Comprehensive.max_time_ms result
                   << " ms" << endl in
  let cout := cout << "  Avg time: " << Comprehensive.avg_time_ms result
                   << " ms" << endl in
  let cout := cout << "  Std dev: " << Comprehensive.std_dev_ms result
                   << " ms" << endl in
  let cout := cout << "  Throughput: " << throughput result
                   << " objects/sec" << endl in
  cout.

(** What [benchmark_serialization_comprehensive<T>] writes to [std::cout];
    [type_name] is [typeid(T).name()], which the implementation chooses. *)
Definition benchmark_serialization_comprehensive_output {T : Type}
    (type_name : string) (cout : ostringstream)
    (clk : clock) (objects : list T) (runs : Z) : ostringstream :=
  let cout := cout << endl << "=== Comprehensive Serialization Benchmark for "
                   << type_name << " ===" << endl in
  let '(reflection_bench, manual_bench) :=
    Comprehensive.timing_loop clk (Z.to_nat runs) 0
      Comprehensive.new_benchmark Comprehensive.new_benchmark in
  let reflection_result :=
    Comprehensive.get_result reflection_bench (List.length objects) in
  let manual_result :=
    Comprehensive.get_result manual_bench (List.length objects) in
  let cout := print_result cout "Reflection-based Serialization" reflection_result in
  let cout := print_result cout "Manual Serialization" manual_result in
  let overhead :=
    Comprehensive.overhead_percent (Comprehensive.avg_time_ms reflection_result)
      (Comprehensive.avg_time_ms manual_result) in
  let cout := cout << "  Performance overhead: " << overhead << "%" << endl in
  cout.

End Report.

(** ** The type tables of the two demo programs *)

Module WorkingMeta.

(** [mock_meta::info] without [type_size]. *)
Record info : Type := mk_info
  { type_name : string; is_class_type : bool; member_count : nat }.

Definition reflexpr (T : WorkingDemo.type) : info :=
  match T with
  | WorkingDemo.TPerson => mk_info "Person" true 3
  | WorkingDemo.TCompany => mk_info "Company" true 3
  end.

Definition get_member_types (T : WorkingDemo.type) : list string :=
  match T with
  | WorkingDemo.TPerson => ["std::string"; "int"; "double"]
  | WorkingDemo.TCompany => ["std::string"; "std::vector<Person>"; "double"]
  end.

End WorkingMeta.

Module PaperMeta.

Definition get_member_types (T : PaperDemo.type) : list string :=
  match T with
  | PaperDemo.TPerson => ["std::string"; "int"; "double"]
  | PaperDemo.TCompany => ["std::string"; "std::vector<Person>"; "double"]
  | PaperDemo.TOther => []
  end.

End PaperMeta.

(** ** [benchmark_type_analysis] of the two demo programs *)

Module TypeAnalysis.

(** working_reflection_demo.cpp:
    [(rtti_time > 0) ? (rtti_time / reflection_time) : 1.0] *)
Definition working_speedup (reflection_time rtti_time : double) : double :=
  if Double.ltb Double.zero rtti_time
  then Double.div rtti_time reflection_time
  else lit 1 1.

(** mock_reflection_demo.cpp: [rtti_time / reflection_time] *)
Definition paper_speedup (reflection_time rtti_time : double) : double :=
  Double.div rtti_time reflection_time.

(** [benchmark_type_analysis]: four readings of the clock; the two times
    and the speedup it prints are returned. *)
Definition working_benchmark_type_analysis (clk : clock) (iterations : Z)
  : double * double * double :=
  let reflection_time := Demo.stop_and_get_ms (clk 0%nat) (clk 1%nat) in
  let rtti_time := Demo.stop_and_get_ms (clk 2%nat) (clk 3%nat) in
  (reflection_time, rtti_time, working_speedup reflection_time rtti_time).

End TypeAnalysis.

(** ** [compile_time_test<N>::factorial()]

  Signed overflow is undefined and rejected in a constant expression: a
  product outside the range of the type is [None]. *)

Module Factorial.

Definition LLONG_MAX : Z := 2 ^ 63 - 1.
Definition INT_MAX : Z := 2 ^ 31 - 1.

Definition checked_mul (max a b : Z) : option Z :=
  let r := a * b in
  if ((- max - 1 <=? r) && (r <=? max))%bool then Some r else None.

(** working_reflection_demo.cpp: [long long], with the guard [N > 20]. *)
Equations? working_factorial (N : Z) : option Z by wf (Z.to_nat N) lt :=
  working_factorial N with Z_le_gt_dec N 1 := {
    | left _ => Some 1
    | right _ with Z_gt_le_dec N 20 := {
      | left _ => Some (-1)
      | right _ =>
          match working_factorial (N - 1) with
          | Some r => checked_mul LLONG_MAX N r
          | None => None
          end } }.
Proof. lia. Qed.

(** mock_reflection_demo.cpp: [int], no guard. *)
Equations? paper_factorial (N : Z) : option Z by wf (Z.to_nat N) lt :=
  paper_factorial N with Z_le_gt_dec N 1 := {
    | left _ => Some 1
    | right _ =>
        match paper_factorial (N - 1) with
        | Some r => checked_mul INT_MAX N r
        | None => None
        end }.
Proof. lia. Qed.

(** The mathematical factorial. *)
Fixpoint fact (n : nat) : Z :=
  match n with
  | O => 1
  | S n' => Z.of_nat n * fact n'
  end.

End Factorial.

(** ** [benchmark_binding_traditional] and [benchmark_binding_reflection]

  The lambda bound to a property of model [i] captures [i] and does
  nothing; a call of it is the event [(i, property)].  [emplace_back()]
  value-initializes a model: empty name, value 0, not active, no
  callback. *)

Module BindingBenchmark.

Inductive property : Type := PName | PValue | PActive.

Definition lambda : Type := (nat * property)%type.

Definition new_model : Binding.DataModel lambda :=
  Binding.mk_DataModel EmptyString 0 false [] [] [].

(** The body of the first loop for index [i]. *)
Definition create_model (i : nat) : Binding.DataModel lambda :=
  let m := new_model in
  let m := Binding.bind_name_changed m (i, PName) in
  let m := Binding.bind_value_changed m (i, PValue) in
  let m := Binding.bind_active_changed m (i, PActive) in
  m.

(** The body of the timed loop for index [i]: the three setters in turn;
    [i % 2] truncates toward zero. *)
Definition trigger (i : nat) (m : Binding.DataModel lambda)
  : Binding.DataModel lambda * list lambda :=
  let '(m, calls1) :=
    Binding.set_name m ("Name" ++ Printf.int_string (Z.of_nat i)) in
  let '(m, calls2) := Binding.set_value m (Z.of_nat i * 2) in
  let '(m, calls3) := Binding.set_active m (Z.rem (Z.of_nat i) 2 =? 0) in
  (m, (calls1 ++ calls2 ++ calls3)%list).

(** The timed loop over the models [i], [i + 1], ...: the calls made. *)
Fixpoint trigger_loop (models : list (Binding.DataModel lambda)) (i : nat)
  : list lambda :=
  match models with
  | [] => []
  | m :: rest => (snd (trigger i m) ++ trigger_loop rest (S i))%list
  end.

(** The benchmark with [iterations] models; the source fixes 25000. *)
Definition benchmark_binding (iterations : nat) : list lambda :=
  trigger_loop (map create_model (seq 0 iterations)) 0.

(** The count the benchmark divides by the time: [iterations * 3]. *)
Definition reported_updates (iterations : nat) : nat := (iterations * 3)%nat.

End BindingBenchmark.

(** ** benchmarks/pattern_reflection.cpp: [Subject]

  An observer is an opaque [std::function<void(const std::string&)>]; a
  call of it is the event of the observer and the state it was given. *)

Module Pattern.

Section Subject.

Variable observer : Type.

Record Subject : Type := mk_Subject
  { state_ : string; observers_ : list observer }.

Definition get_state (s : Subject) : string := state_ s.

(** [for (auto& observer : observers_) observer(state_);] after [trace]. *)
Fixpoint notify_each (observers : list observer) (state : string)
    (trace : list (observer * string)) : list (observer * string) :=
  match observers with
  | [] => trace
  | o :: rest => notify_each rest state (trace ++ [(o, state)])
  end.

Definition notify_observers (s : Subject) : list (observer * string) :=
  notify_each (observers_ s) (state_ s) [].

Definition set_state (s : Subject) (new_state : string)
  : Subject * list (observer * string) :=
  if negb (String.eqb (state_ s) new_state) then
    let s' := mk_Subject new_state (observers_ s) in
    (s', notify_observers s')
  else (s, []).

Definition add_observer (s : Subject) (o : observer) : Subject :=
  mk_Subject (state_ s) (observers_ s ++ [o]).

(** [observers_.erase(observers_.begin() + index)] *)
Definition erase_at (index : nat) (l : list observer) : list observer :=
  (firstn index l ++ skipn (S index) l)%list.

Definition remove_observer (s : Subject) (index : nat) : Subject :=
  if Nat.ltb index (List.length (observers_ s))
  then mk_Subject (state_ s) (erase_at index (observers_ s))
  else s.

End Subject.

Arguments mk_Subject {observer}.
Arguments state_ {observer}.
Arguments observers_ {observer}.
Arguments get_state {observer}.
Arguments notify_each {observer}.
Arguments notify_observers {observer}.
Arguments set_state {observer}.
Arguments add_observer {observer}.
Arguments erase_at {observer}.
Arguments remove_observer {observer}.

End Pattern.

(** ** benchmarks/template_traditional.cpp and template_reflection.cpp:
       [Container<T>]

  In both files the quotation marks around a string element are written
  as three quotation marks in a row.  The lexer reads an empty literal, a
  literal that holds the text up to the next quotation mark, and another
  empty literal, and joins them: what is inserted is that text, not the
  element. *)

Module Container.

Local Open Scope stream_scope.

Section Generic.

Variable T : Type.

Definition add (data_ : list T) (item : T) : list T := (data_ ++ [item])%list.

Definition size (data_ : list T) : nat := List.length data_.

(** template_traditional.cpp, [Container<T>::serialize]: the loop, with
    [serialize_element] as the arithmetic branch gives it. *)
Variable serialize_element : ostringstream -> T -> ostringstream.

Fixpoint traditional_loop (rest : list T) (i : nat) (oss : ostringstream)
  : ostringstream :=
  match rest with
  | [] => oss
  | element :: rest' =>
      let oss := if Nat.ltb 0 i then oss << "," else oss in
      let oss := serialize_element oss element in
      traditional_loop rest' (S i) oss
  end.

Definition traditional_serialize (data_ : list T) : string :=
  let oss := fresh in
  let oss := oss << "[" in
  let oss := traditional_loop data_ 0 oss in
  let oss := oss << "]" in
  str oss.

(** template_reflection.cpp, [Container<T>::serialize]: [result +=]. *)
Variable element_text : T -> string.

Fixpoint reflection_loop (rest : list T) (i : nat) (result : string) : string :=
  match rest with
  | [] => result
  | element :: rest' =>
      let result := if Nat.ltb 0 i then result ++ "," else result in
      let result := result ++ element_text element in
      reflection_loop rest' (S i) result
  end.

Definition reflection_serialize (data_ : list T) : string :=
  let result := "[" in
  let result := reflection_loop data_ 0 result in
  let result := result ++ "]" in
  result.

End Generic.

Arguments add {T}.
Arguments size {T}.
Arguments traditional_loop {T}.
Arguments traditional_serialize {T}.
Arguments reflection_loop {T}.
Arguments reflection_serialize {T}.

(** [Container<int>] and [Container<double>] of template_traditional.cpp:
    [oss << element]. *)
Definition traditional_serialize_int : list Z -> string :=
  traditional_serialize (fun oss (element : Z) => oss << element).

Definition traditional_serialize_double : list double -> string :=
  traditional_serialize (fun oss (element : double) => oss << element).

(** The text the three quotation marks make of [<< data_[i] <<]. *)
Definition traditional_string_literal : string := " << data_[i] << ".

(** The specialization [Container<std::string>::serialize]. *)
Fixpoint traditional_string_loop (rest : list string) (i : nat)
    (oss : ostringstream) : ostringstream :=
  match rest with
  | [] => oss
  | _ :: rest' =>
      let oss := if Nat.ltb 0 i then oss << "," else oss in
      let oss := oss << traditional_string_literal in
      traditional_string_loop rest' (S i) oss
  end.

Definition traditional_serialize_string (data_ : list string) : string :=
  let oss := fresh in
  let oss := oss << "[" in
  let oss := traditional_string_loop data_ 0 oss in
  let oss := oss << "]" in
  str oss.

(** template_reflection.cpp: [std::to_string(int)] prints the decimal
    digits, [std::to_string(double)] prints with [%f]. *)
Definition reflection_serialize_int : list Z -> string :=
  reflection_serialize Printf.int_string.

Definition reflection_serialize_double : list double -> string :=
  reflection_serialize (Printf.fixed 6).

(** The text the three quotation marks make of [+ std::string(element) +]. *)
Definition reflection_string_literal : string := " + std::string(element) + ".

Definition reflection_serialize_string : list string -> string :=
  reflection_serialize (fun _ : string => reflection_string_literal).

End Container.

(** * Specification-side definitions *)

(** ** The text of an object

  A brace-wrapped, comma-separated sequence of [name:value] pairs; the
  name is wrapped in quotation marks.  A [Text] value is wrapped in
  quotation marks without escaping; a sequence is wrapped in brackets with
  its elements joined by commas. *)

Definition quoted (s : string) : string :=
  String dquote s ++ String dquote EmptyString.

Definition pair_text (f : string * string) : string :=
  quoted (fst f) ++ ":" ++ snd f.

Definition object_text (fields : list (string * string)) : string :=
  "{" ++ String.concat "," (map pair_text fields) ++ "}".

Definition sequence_text (elements : list string) : string :=
  "[" ++ String.concat "," elements ++ "]".

(** The five-field [Person] with [salary_text] for the salary. *)
Definition Person_text (salary_text : string) (p : Comprehensive.Person.t) : string :=
  object_text
    [ ("name", quoted (Comprehensive.Person.name p));
      ("age", Printf.int_string (Comprehensive.Person.age p));
      ("salary", salary_text);
      ("department", quoted (Comprehensive.Person.department p));
      ("is_active", bool_text (Comprehensive.Person.is_active p)) ].

Definition Product_text (price_text rating_text : string)
    (p : Comprehensive.Product.t) : string :=
  object_text
    [ ("name", quoted (Comprehensive.Product.name p));
      ("price", price_text);
      ("quantity", Printf.int_string (Comprehensive.Product.quantity p));
      ("category", quoted (Comprehensive.Product.category p));
      ("rating", rating_text) ].

(** [Order] in the order the serializer writes the fields. *)
Definition Order_fields_written : list string :=
  ["order_id"; "customer_name"; "total_amount"; "order_date"; "items"].

Definition Order_text (amount_text : string) (item_texts : list string)
    (o : Comprehensive.Order.t) : string :=
  object_text
    (combine Order_fields_written
       [ Printf.int_string (Comprehensive.Order.order_id o);
         quoted (Comprehensive.Order.customer_name o);
         amount_text;
         quoted (Comprehensive.Order.order_date o);
         sequence_text item_texts ]).

(** The three-field [Person] of the demos. *)
Definition Demo_Person_text (p : Demo.Person.t) : string :=
  object_text
    [ ("name", quoted (Demo.Person.name p));
      ("age", Printf.int_string (Demo.Person.age p));
      ("salary", Printf.general 6 (Demo.Person.salary p)) ].

Definition Company_fields_written : list string := ["name"; "revenue"; "employees"].

Definition Company_text (employee_texts : list string) (c : Demo.Company.t) : string :=
  object_text
    (combine Company_fields_written
       [ quoted (Demo.Company.name c);
         Printf.general 6 (Demo.Company.revenue c);
         sequence_text employee_texts ]).

(** What a sequence loop appends when it starts at index [i]: nothing for
    no element, else the texts joined by commas, after a comma when
    [i > 0]. *)
Definition loop_text (i : nat) (texts : list string) : string :=
  match texts with
  | [] => EmptyString
  | _ => (if Nat.ltb 0 i then "," else EmptyString) ++ String.concat "," texts
  end.

(** ** Order of occurrence in a text *)

Fixpoint drop (n : nat) (s : string) : string :=
  match n, s with
  | O, _ => s
  | S n', String _ r => drop n' r
  | S _, EmptyString => EmptyString
  end.

(** [p] occurs in [s] at index [i]. *)
Definition occurs_at (p : string) (i : nat) (s : string) : bool :=
  String.prefix p (drop i s).

(** [p] occurs in [s] and [q] occurs somewhere after that occurrence. *)
Definition occurs_then (p q s : string) : bool :=
  existsb
    (fun i =>
       (occurs_at p i s
        && existsb (fun j => occurs_at q j s)
             (seq (i + String.length p) (S (String.length s))))%bool)
    (seq 0 (S (String.length s))).

(** Registration-order layout: the text is the object text of the
    registered member names, in that order, with some value texts. *)
Definition registration_order_text (names : list string) (s : string) : Prop :=
  exists values : list string,
    List.length values = List.length names
    /\ s = object_text (combine names values).

Fixpoint total_length (l : list string) : nat :=
  match l with
  | [] => 0%nat
  | x :: r => (String.length x + total_length r)%nat
  end.

(** ** Benchmark statistics *)

(** The result with every time 0.0 and no iteration. *)
Definition zero_result (data_size : nat) : Comprehensive.BenchmarkResult :=
  Comprehensive.mk_BenchmarkResult Double.zero Double.zero Double.zero Double.zero
    0 data_size.

Definition no_nan (l : list double) : Prop :=
  Forall (fun x => Double.is_nan x = false) l.

(** [x] is an element of [l] that is [<=] every element. *)
Definition smallest_of (x : double) (l : list double) : Prop :=
  In x l /\ forall t : double, In t l -> Double.leb x t = true.

(** [x] is an element of [l] that every element is [<=]. *)
Definition largest_of (x : double) (l : list double) : Prop :=
  In x l /\ forall t : double, In t l -> Double.leb t x = true.

(** The sum of the specification, in binary64 from left to right. *)
Definition sum_of (l : list double) : double := fold_left Double.add l Double.zero.

Definition count_of (l : list double) : double :=
  Double.of_Z (Z.of_nat (List.length l)).

(** [mean = sum / trial_count] *)
Definition mean_of (l : list double) : double := Double.div (sum_of l) (count_of l).

(** [sqrt(sum((t - mean)^2) / trial_count)]: the population standard
    deviation, which divides by the count and not by the count less one. *)
Definition population_std_dev_of (l : list double) : double :=
  let mean := mean_of l in
  Double.sqrt
    (Double.div
       (sum_of (map (fun t => Double.mul (Double.sub t mean) (Double.sub t mean)) l))
       (count_of l)).

(** The trials 10, 20 and 30 ms. *)
Definition trials_10_20_30 : list double :=
  [Double.of_Z 10; Double.of_Z 20; Double.of_Z 30].

(** A clock that advances one millisecond between readings. *)
Definition clock_1ms : clock := fun n => Z.of_nat n * 1000000.

(** A clock that does not advance: every duration is zero. *)
Definition clock_stopped : clock := fun _ => 0.

(** ** Fixed-point text with two decimals

  An optional minus sign, at least one digit, a point and exactly two
  digits. *)

Fixpoint all_digits (s : string) : bool :=
  match s with
  | EmptyString => true
  | String c r => (Printf.is_digit c && all_digits r)%bool
  end.

Definition fixed2_text (t : string) : Prop :=
  exists (sgn ip : string) (d1 d2 : ascii),
    t = sgn ++ ip ++ "." ++ String d1 (String d2 EmptyString)
    /\ (sgn = EmptyString \/ sgn = "-")
    /\ ip <> EmptyString /\ all_digits ip = true
    /\ Printf.is_digit d1 = true /\ Printf.is_digit d2 = true.

(** ** Inputs of the examples *)

(** [Person('Alice', 30, 75000.0, 'Engineering', true)] *)
Definition alice : Comprehensive.Person.t :=
  Comprehensive.Person.make "Alice" 30 (lit 75000 1) "Engineering" true.

(** [Product('Pen', 1.0, 3, 'Tools', 4.5)] *)
Definition pen : Comprehensive.Product.t :=
  Comprehensive.Product.make "Pen" (lit 1 1) 3 "Tools" (lit 45 10).

(** [Order(1, 'Bob', 1.0, '2024-01-01')], no item added. *)
Definition order_one : Comprehensive.Order.t :=
  Comprehensive.Order.make 1 "Bob" [] (lit 1 1) "2024-01-01".

(** [Order(7, 'Ann', 2.5, '2024-02-02')] with [pen] pushed twice. *)
Definition order_two_pens : Comprehensive.Order.t :=
  Comprehensive.Order.make 7 "Ann" [pen; pen] (lit 25 10) "2024-02-02".

(** [Company('Acme', 1000000.0)] with one employee. *)
Definition acme : Demo.Company.t :=
  Demo.Company.make "Acme" [Demo.Person.make "Alice" 30 (lit 75000 1)] (lit 1000000 1).

(** ** Clocks and more inputs *)

(** A clock that never goes back. *)
Definition steady (clk : clock) : Prop := forall n : nat, clk n <= clk (S n).

(** No two successive readings are further apart than a signed 64-bit
    count of nanoseconds holds (about 292 years). *)
Definition within_int64 (clk : clock) : Prop :=
  forall n : nat, clk (S n) - clk n <= INT64_MAX.

(** Two persons whose name and department hold quotation marks, with the
    salary text of the generic serializer inside. *)
Definition quoted_name_person : Comprehensive.Person.t :=
  Comprehensive.Person.make
    (cstr "x','age':1,'salary':1.00,'department':'y") 1 (lit 1 1) "z" true.

Definition quoted_department_person : Comprehensive.Person.t :=
  Comprehensive.Person.make
    "x" 1 (lit 1 1) (cstr "y','age':1,'salary':1.00,'department':'z") true.

(** The same with the salary text of the manual serializer inside. *)
Definition quoted_name_person_manual : Comprehensive.Person.t :=
  Comprehensive.Person.make
    (cstr "x','age':1,'salary':1,'department':'y") 1 (lit 1 1) "z" true.

Definition quoted_department_person_manual : Comprehensive.Person.t :=
  Comprehensive.Person.make
    "x" 1 (lit 1 1) (cstr "y','age':1,'salary':1,'department':'z") true.

(** Two persons that differ in the third decimal of the salary. *)
Definition salary_1001 : Comprehensive.Person.t :=
  Comprehensive.Person.make "x" 1 (lit 1001 1000) "z" true.

Definition salary_1002 : Comprehensive.Person.t :=
  Comprehensive.Person.make "x" 1 (lit 1002 1000) "z" true.

(** The person the mock deserializer returns. *)
Definition mock_person : Comprehensive.Person.t :=
  Comprehensive.Person.make "Mock" 30 (lit 50000 1) "IT" true.

(** The sign bit of a value that is not NaN. *)
Definition has_sign (sx : bool) (x : double) : Prop :=
  match x with
  | S754_zero s | S754_infinity s | S754_finite s _ _ => s = sx
  | S754_nan => False
  end.

Definition all_nonneg (l : list double) : Prop :=
  Forall (fun x => Double.leb Double.zero x = true) l.

(** The lines [print_result] writes for a result, with every time and
    the throughput in [%.3f]. *)
Definition result_text (test_name : string) (r : Comprehensive.BenchmarkResult)
  : string :=
  Report.endl ++ test_name ++ " Results:" ++ Report.endl
  ++ "  Data size: " ++ Printf.int_string (Z.of_nat (Comprehensive.data_size r))
  ++ " objects" ++ Report.endl
  ++ "  Iterations: " ++ Printf.int_string (Z.of_nat (Comprehensive.iterations r))
  ++ Report.endl
  ++ "  Min time: " ++ Printf.fixed 3 (Comprehensive.min_time_ms r) ++ " ms"
  ++ Report.endl
  ++ "  Max time: " ++ Printf.fixed 3 (Comprehensive.max_time_ms r) ++ " ms"
  ++ Report.endl
  ++ "  Avg time: " ++ Printf.fixed 3 (Comprehensive.avg_time_ms r) ++ " ms"
  ++ Report.endl
  ++ "  Std dev: " ++ Printf.fixed 3 (Comprehensive.std_dev_ms r) ++ " ms"
  ++ Report.endl
  ++ "  Throughput: " ++ Printf.fixed 3 (Report.throughput r) ++ " objects/sec"
  ++ Report.endl.

(** The numbers of the report of a comparison, in the order they are
    written: the four times and the throughput of both results, then the
    overhead. *)
Definition result_values (r : Comprehensive.BenchmarkResult) : list double :=
  [Comprehensive.min_time_ms r; Comprehensive.max_time_ms r;
   Comprehensive.avg_time_ms r; Comprehensive.std_dev_ms r;
   Report.throughput r].

Definition report_values (c : Comprehensive.Comparison) : list double :=
  (result_values (Comprehensive.reflection_result c)
   ++ result_values (Comprehensive.manual_result c)
   ++ [Comprehensive.overhead c])%list.

(** The callbacks model [i] of the binding benchmark calls in the timed
    loop: the name callback, the value callback unless [i] is 0, and the
    active callback when [i] is even. *)
Definition calls_of_model (i : nat) : list BindingBenchmark.lambda :=
  ([(i, BindingBenchmark.PName)]
   ++ (if Nat.eqb i 0 then [] else [(i, BindingBenchmark.PValue)])
   ++ (if Nat.even i then [(i, BindingBenchmark.PActive)] else []))%list.

(** * Theorems *)

Lemma append_assoc (a b c : string) : (a ++ b) ++ c = a ++ (b ++ c).
Proof.
  induction a as [| ch a IH]; simpl; [reflexivity | now rewrite IH].
Qed.

Lemma append_nil_r (a : string) : a ++ EmptyString = a.
Proof.
  induction a as [| ch a IH]; simpl; [reflexivity | now rewrite IH].
Qed.

Ltac stream_norm :=
  unfold str, fresh; cbn [insert insert_string insert_int insert_double
    insert_manipulator write apply_manipulator double_text os_buf os_floatfield
    os_precision];
  unfold object_text, pair_text, quoted, sequence_text;
  cbn [map fst snd String.concat combine];
  repeat rewrite append_assoc; cbn [cstr append Ascii.eqb Bool.eqb];
  repeat rewrite append_assoc.

Lemma length_append (a b : string) :
  String.length (a ++ b) = (String.length a + String.length b)%nat.
Proof.
  induction a as [| ch a IH]; simpl; [reflexivity | now rewrite IH].
Qed.

Lemma append_inv_head (a x y : string) : a ++ x = a ++ y -> x = y.
Proof.
  induction a as [| ch a IH]; simpl; intros H; [exact H |].
  injection H as H. now apply IH.
Qed.

Lemma append_inv_tail (b x y : string) : x ++ b = y ++ b -> x = y.
Proof.
  revert y. induction x as [| c x IH]; intros [| d y] H; simpl in H.
  - reflexivity.
  - exfalso. apply (f_equal String.length) in H. simpl in H.
    rewrite length_append in H. lia.
  - exfalso. apply (f_equal String.length) in H. simpl in H.
    rewrite length_append in H. lia.
  - injection H as Hc H. subst d. f_equal. now apply IH.
Qed.

(** Peels the common front of two texts that differ in one hole. *)
Ltac peel_front H :=
  repeat first [ injection H as H | apply append_inv_head in H ].

(** * The serializers of comprehensive_benchmark.cpp *)

Section PersonSerializers.

Import Comprehensive.

Lemma generic_Person_text (p : Person.t) :
  ReflectionSerializer_Person_serialize p
  = Person_text (Printf.fixed 2 (Person.salary p)) p.
Proof.
  unfold ReflectionSerializer_Person_serialize, Person_text.
  stream_norm. reflexivity.
Qed.

Lemma manual_Person_text (p : Person.t) :
  manual_serialize_Person p
  = Person_text (Printf.general 6 (Person.salary p)) p.
Proof.
  unfold manual_serialize_Person, Person_text.
  stream_norm. reflexivity.
Qed.

Lemma generic_Product_text (q : Product.t) :
  ReflectionSerializer_Product_serialize q
  = Product_text (Printf.fixed 2 (Product.price q))
                 (Printf.fixed 2 (Product.rating q)) q.
Proof.
  unfold ReflectionSerializer_Product_serialize, Product_text.
  stream_norm. reflexivity.
Qed.

Lemma manual_Product_text (q : Product.t) :
  manual_serialize_Product q
  = Product_text (Printf.general 6 (Product.price q))
                 (Printf.general 6 (Product.rating q)) q.
Proof.
  unfold manual_serialize_Product, Product_text.
  stream_norm. reflexivity.
Qed.

Lemma Person_text_inj (t1 t2 : string) (p : Person.t) :
  Person_text t1 p = Person_text t2 p -> t1 = t2.
Proof.
  unfold Person_text. stream_norm. intros H.
  peel_front H. now apply append_inv_tail in H.
Qed.

End PersonSerializers.

(** C1, as stated, fails: for [alice] the generic serializer writes the
    salary as 75000.00 and the manual serializer writes it as 75000, so the
    two texts differ. *)
Lemma C1_generic_and_manual_differ :
  Comprehensive.ReflectionSerializer_Person_serialize alice
    = cstr "{'name':'Alice','age':30,'salary':75000.00,'department':'Engineering','is_active':true}"
  /\ Comprehensive.manual_serialize_Person alice
    = cstr "{'name':'Alice','age':30,'salary':75000,'department':'Engineering','is_active':true}"
  /\ Comprehensive.ReflectionSerializer_Person_serialize alice
      <> Comprehensive.manual_serialize_Person alice.
Proof.
  assert (G : Comprehensive.ReflectionSerializer_Person_serialize alice
    = cstr "{'name':'Alice','age':30,'salary':75000.00,'department':'Engineering','is_active':true}")
    by (vm_compute; reflexivity).
  assert (M : Comprehensive.manual_serialize_Person alice
    = cstr "{'name':'Alice','age':30,'salary':75000,'department':'Engineering','is_active':true}")
    by (vm_compute; reflexivity).
  split; [exact G | split; [exact M |]].
  rewrite G, M. vm_compute. discriminate.
Qed.

(** C1, amended: the generic and the manual serializer of [Person] and of
    [Product] write the same object text, except that the generic one
    renders every floating-point field with [%.2f] and the manual one with
    [%.6g]; for [Person] the two texts are equal exactly when the two
    renderings of the salary are.  The three-field [Person] of
    working_reflection_demo.cpp is written the same by both paths. *)
Theorem C1_generic_manual_same_up_to_float_format :
  (forall p : Comprehensive.Person.t,
      Comprehensive.ReflectionSerializer_Person_serialize p
        = Person_text (Printf.fixed 2 (Comprehensive.Person.salary p)) p
      /\ Comprehensive.manual_serialize_Person p
        = Person_text (Printf.general 6 (Comprehensive.Person.salary p)) p
      /\ (Comprehensive.ReflectionSerializer_Person_serialize p
            = Comprehensive.manual_serialize_Person p
          <-> Printf.fixed 2 (Comprehensive.Person.salary p)
              = Printf.general 6 (Comprehensive.Person.salary p)))
  /\ (forall q : Comprehensive.Product.t,
      Comprehensive.ReflectionSerializer_Product_serialize q
        = Product_text (Printf.fixed 2 (Comprehensive.Product.price q))
                       (Printf.fixed 2 (Comprehensive.Product.rating q)) q
      /\ Comprehensive.manual_serialize_Product q
        = Product_text (Printf.general 6 (Comprehensive.Product.price q))
                       (Printf.general 6 (Comprehensive.Product.rating q)) q)
  /\ (forall p : Demo.Person.t,
      WorkingDemo.ReflectionSerializer_Person_serialize p
        = WorkingDemo.manual_serialize_Person p).
Proof.
  split; [| split].
  - intros p. split; [apply generic_Person_text |].
    split; [apply manual_Person_text |].
    rewrite generic_Person_text, manual_Person_text. split.
    + apply Person_text_inj.
    + intros E. now rewrite E.
  - intros q. split; [apply generic_Product_text | apply manual_Product_text].
  - intros p. reflexivity.
Qed.

(** * Floating-point fields *)

Lemma is_digit_digit_char (d : Z) :
  0 <= d < 10 -> Printf.is_digit (Printf.digit_char d) = true.
Proof.
  intros Hd. unfold Printf.is_digit, Printf.digit_char.
  rewrite nat_ascii_embedding by lia.
  apply andb_true_intro. split; apply Nat.leb_le; lia.
Qed.

Lemma frac_digits_two (N : Z) :
  Printf.frac_digits 2 N
  = [Printf.digit_char ((N / 10 ^ 1) mod 10); Printf.digit_char ((N / 10 ^ 0) mod 10)].
Proof. reflexivity. Qed.

Lemma all_digits_uint (u : Decimal.uint) :
  all_digits (DecimalString.NilEmpty.string_of_uint u) = true.
Proof.
  induction u; simpl; try reflexivity; assumption.
Qed.

Lemma dec_string_digits (z : Z) :
  Printf.dec_string z <> EmptyString /\ all_digits (Printf.dec_string z) = true.
Proof.
  unfold Printf.dec_string, DecimalString.NilZero.string_of_uint.
  destruct (N.to_uint (Z.to_N z)) eqn:E;
    (split; [simpl; discriminate | try reflexivity; apply all_digits_uint]).
Qed.

Lemma sign_string_cases (s : bool) :
  Printf.sign_string s = EmptyString \/ Printf.sign_string s = "-".
Proof. destruct s; [right | left]; reflexivity. Qed.

(** [%.2f] of a finite value is fixed-point text with two decimals. *)
Lemma fixed_two_decimals (x : double) :
  Double.is_finite x = true -> fixed2_text (Printf.fixed 2 x).
Proof.
  destruct x as [s | s | | s m e]; intros H; try discriminate H; clear H;
    unfold Printf.fixed.
  - exists (Printf.sign_string s), "0", (Printf.digit_char 0), (Printf.digit_char 0).
    repeat split; try reflexivity; try discriminate.
    apply sign_string_cases.
  - destruct (Printf.exact_decimal m e) as [D n].
    set (N := Printf.round_to_places D n (Z.of_nat 2)).
    exists (Printf.sign_string s), (Printf.dec_string (N / 10 ^ Z.of_nat 2)),
      (Printf.digit_char ((N / 10 ^ 1) mod 10)),
      (Printf.digit_char ((N / 10 ^ 0) mod 10)).
    rewrite frac_digits_two.
    split; [reflexivity |].
    split; [apply sign_string_cases |].
    split; [apply dec_string_digits |].
    split; [apply dec_string_digits |].
    split; apply is_digit_digit_char; apply Z.mod_pos_bound; lia.
Qed.

Lemma fixed2_text_length (t : string) :
  fixed2_text t -> (4 <= String.length t)%nat.
Proof.
  intros (sgn & ip & d1 & d2 & -> & _ & Hip & _).
  rewrite !length_append. simpl.
  destruct ip as [| c ip]; [contradiction | simpl; lia].
Qed.

(** The rounding of the model on known outputs of [printf]: 1.005 is the
    binary64 value just below it and prints as 1.00; the tie 0.125 goes to
    the even digit; [%g] switches to scientific style at 1e+06 and below
    1e-04. *)
Lemma printf_examples :
  Printf.fixed 2 (lit 1 1) = "1.00"
  /\ Printf.fixed 2 (lit 1005 1000) = "1.00"
  /\ Printf.fixed 2 (lit 125 1000) = "0.12"
  /\ Printf.fixed 2 (lit (-1) 1000) = "-0.00"
  /\ Printf.fixed 2 (lit 123456789 1000) = "123456.79"
  /\ Printf.general 6 (lit 1 1) = "1"
  /\ Printf.general 6 (lit 1005 1000) = "1.005"
  /\ Printf.general 6 (lit 123456789 1000) = "123457"
  /\ Printf.general 6 (lit 9999995 10) = "1e+06"
  /\ Printf.general 6 (lit 1 100000) = "1e-05"
  /\ Printf.general 6 (lit 1234 10000000) = "0.0001234"
  /\ Printf.general 6 (Double.div (lit 1 1) Double.zero) = "inf".
Proof. repeat split; vm_compute; reflexivity. Qed.

(** * Sequences of records *)

Lemma concat_cons (x : string) (l : list string) :
  String.concat "," (x :: l) = x ++ loop_text 1 l.
Proof.
  destruct l as [| y l]; simpl; [now rewrite append_nil_r | reflexivity].
Qed.

Lemma loop_text_S (i : nat) (texts : list string) :
  loop_text (S i) texts = loop_text 1 texts.
Proof. destruct texts; reflexivity. Qed.

Ltac loop_buf_proof IH :=
  cbn [map]; unfold loop_text at 1; rewrite concat_cons;
  match goal with |- context [Nat.ltb 0 ?i] => destruct (Nat.ltb 0 i) end;
  rewrite IH, loop_text_S;
  cbn [insert insert_string write os_buf os_floatfield os_precision append];
  repeat rewrite append_assoc; reflexivity.

Lemma serialize_items_buf (rest : list Comprehensive.Product.t) :
  forall (i : nat) (json : ostringstream),
    os_buf (Comprehensive.serialize_items rest i json)
    = os_buf json
      ++ loop_text i (map Comprehensive.ReflectionSerializer_Product_serialize rest).
Proof.
  induction rest as [| item rest IH]; intros i json.
  - simpl. now rewrite append_nil_r.
  - cbn [Comprehensive.serialize_items]. loop_buf_proof IH.
Qed.

Lemma working_employees_buf (rest : list Demo.Person.t) :
  forall (i : nat) (json : ostringstream),
    os_buf (WorkingDemo.serialize_employees rest i json)
    = os_buf json
      ++ loop_text i (map WorkingDemo.ReflectionSerializer_Person_serialize rest).
Proof.
  induction rest as [| item rest IH]; intros i json.
  - simpl. now rewrite append_nil_r.
  - cbn [WorkingDemo.serialize_employees]. loop_buf_proof IH.
Qed.

Lemma loop_text_0 (texts : list string) :
  loop_text 0 texts = String.concat "," texts.
Proof. destruct texts; reflexivity. Qed.

Lemma generic_Order_text (o : Comprehensive.Order.t) :
  Comprehensive.ReflectionSerializer_Order_serialize o
  = Order_text (Printf.general 6 (Comprehensive.Order.total_amount o))
      (map Comprehensive.ReflectionSerializer_Product_serialize
           (Comprehensive.Order.items o)) o.
Proof.
  unfold Comprehensive.ReflectionSerializer_Order_serialize, Order_text,
    Order_fields_written.
  unfold str. cbn [insert insert_string write os_buf].
  rewrite serialize_items_buf, loop_text_0.
  stream_norm. reflexivity.
Qed.

Lemma working_Person_text (p : Demo.Person.t) :
  WorkingDemo.ReflectionSerializer_Person_serialize p = Demo_Person_text p.
Proof.
  unfold WorkingDemo.ReflectionSerializer_Person_serialize, Demo_Person_text.
  stream_norm. reflexivity.
Qed.

Lemma paper_Person_text (p : Demo.Person.t) :
  PaperDemo.serialize_Person p = Demo_Person_text p.
Proof.
  unfold PaperDemo.serialize_Person, Demo_Person_text.
  stream_norm. reflexivity.
Qed.

Lemma working_Company_text (c : Demo.Company.t) :
  WorkingDemo.ReflectionSerializer_Company_serialize c
  = Company_text (map WorkingDemo.ReflectionSerializer_Person_serialize
                      (Demo.Company.employees c)) c.
Proof.
  unfold WorkingDemo.ReflectionSerializer_Company_serialize, Company_text,
    Company_fields_written.
  unfold str. cbn [insert insert_string write os_buf].
  rewrite working_employees_buf, loop_text_0.
  stream_norm. reflexivity.
Qed.

Lemma concat_length (texts : list string) :
  String.length (String.concat "," texts)
  = (total_length texts + (List.length texts - 1))%nat.
Proof.
  induction texts as [| x [| y l] IH].
  - reflexivity.
  - simpl. lia.
  - change (String.concat "," (x :: y :: l))
      with (x ++ "," ++ String.concat "," (y :: l)).
    rewrite !length_append, IH.
    cbn [String.length total_length List.length]. lia.
Qed.

Lemma Order_text_length (t : string) (texts : list string)
    (o : Comprehensive.Order.t) :
  String.length (Order_text t texts o)
  = (String.length (Order_text EmptyString texts o) + String.length t)%nat.
Proof.
  unfold Order_text, Order_fields_written. stream_norm.
  repeat (cbn [String.length]; rewrite ?length_append). lia.
Qed.

Lemma Product_text_length (t1 t2 : string) (q : Comprehensive.Product.t) :
  String.length (Product_text t1 t2 q)
  = (String.length (Product_text EmptyString EmptyString q)
     + String.length t1 + String.length t2)%nat.
Proof.
  unfold Product_text. stream_norm.
  repeat (cbn [String.length]; rewrite ?length_append). lia.
Qed.

(** C2, as stated, fails: [Order.total_amount] 1.0 is written as [1], and
    the manual serializer writes the price 1.0 of [pen] as [1] and its
    rating as [4.5]; neither text holds a two-decimal rendering in the
    place of those fields. *)
Lemma C2_default_format_fields :
  Comprehensive.ReflectionSerializer_Order_serialize order_one
    = cstr "{'order_id':1,'customer_name':'Bob','total_amount':1,'order_date':'2024-01-01','items':[]}"
  /\ ~ (exists t : string,
          fixed2_text t
          /\ Comprehensive.ReflectionSerializer_Order_serialize order_one
             = Order_text t [] order_one)
  /\ Comprehensive.manual_serialize_Product pen
    = cstr "{'name':'Pen','price':1,'quantity':3,'category':'Tools','rating':4.5}"
  /\ ~ (exists t1 t2 : string,
          fixed2_text t1 /\ fixed2_text t2
          /\ Comprehensive.manual_serialize_Product pen = Product_text t1 t2 pen).
Proof.
  split; [vm_compute; reflexivity |].
  split.
  - intros (t & Ht & E).
    apply fixed2_text_length in Ht.
    apply (f_equal String.length) in E.
    rewrite Order_text_length in E.
    remember (String.length
                (Comprehensive.ReflectionSerializer_Order_serialize order_one)) as a eqn:Ea.
    remember (String.length (Order_text EmptyString [] order_one)) as b eqn:Eb.
    vm_compute in Ea, Eb. subst a b. lia.
  - split; [vm_compute; reflexivity |].
    intros (t1 & t2 & H1 & H2 & E).
    apply fixed2_text_length in H1, H2.
    apply (f_equal String.length) in E.
    rewrite Product_text_length in E.
    remember (String.length (Comprehensive.manual_serialize_Product pen)) as a eqn:Ea.
    remember (String.length (Product_text EmptyString EmptyString pen)) as b eqn:Eb.
    vm_compute in Ea, Eb. subst a b. lia.
Qed.

(** C2, amended: the generic serializers of [Person] and [Product] write
    every floating-point field (salary; price and rating) of a finite value
    in fixed-point text with exactly two decimals.  The manual serializers
    write the same fields in the default format of the stream, [%.6g]. *)
Theorem C2_float_fields_by_serializer
    (p : Comprehensive.Person.t) (q : Comprehensive.Product.t)
    (Hsalary : Double.is_finite (Comprehensive.Person.salary p) = true)
    (Hprice : Double.is_finite (Comprehensive.Product.price q) = true)
    (Hrating : Double.is_finite (Comprehensive.Product.rating q) = true) :
  (exists t : string,
      fixed2_text t
      /\ Comprehensive.ReflectionSerializer_Person_serialize p = Person_text t p)
  /\ (exists t1 t2 : string,
      fixed2_text t1 /\ fixed2_text t2
      /\ Comprehensive.ReflectionSerializer_Product_serialize q = Product_text t1 t2 q)
  /\ Comprehensive.manual_serialize_Person p
     = Person_text (Printf.general 6 (Comprehensive.Person.salary p)) p
  /\ Comprehensive.manual_serialize_Product q
     = Product_text (Printf.general 6 (Comprehensive.Product.price q))
                    (Printf.general 6 (Comprehensive.Product.rating q)) q.
Proof.
  split.
  { exists (Printf.fixed 2 (Comprehensive.Person.salary p)).
    split; [now apply fixed_two_decimals | apply generic_Person_text]. }
  split.
  { exists (Printf.fixed 2 (Comprehensive.Product.price q)),
      (Printf.fixed 2 (Comprehensive.Product.rating q)).
    split; [now apply fixed_two_decimals |].
    split; [now apply fixed_two_decimals | apply generic_Product_text]. }
  split; [apply manual_Person_text | apply manual_Product_text].
Qed.

(** [alice] and [pen] have finite fields: the salary 75000.0 is written as
    75000.00, the price 1.0 as 1.00 and the rating 4.5 as 4.50. *)
Lemma C2_float_fields_alice_pen :
  (exists t : string,
      fixed2_text t
      /\ Comprehensive.ReflectionSerializer_Person_serialize alice = Person_text t alice)
  /\ Comprehensive.ReflectionSerializer_Product_serialize pen
     = cstr "{'name':'Pen','price':1.00,'quantity':3,'category':'Tools','rating':4.50}".
Proof.
  split.
  - exact (proj1 (C2_float_fields_by_serializer alice pen eq_refl eq_refl eq_refl)).
  - vm_compute. reflexivity.
Defined.

(** The texts written for no item, one employee and two items. *)
Lemma sequence_examples :
  Comprehensive.ReflectionSerializer_Order_serialize Comprehensive.Order.default
    = cstr "{'order_id':0,'customer_name':'','total_amount':0,'order_date':'','items':[]}"
  /\ WorkingDemo.ReflectionSerializer_Company_serialize acme
    = cstr "{'name':'Acme','revenue':1e+06,'employees':[{'name':'Alice','age':30,'salary':75000}]}"
  /\ Comprehensive.ReflectionSerializer_Order_serialize order_two_pens
    = cstr ("{'order_id':7,'customer_name':'Ann','total_amount':2.5,'order_date':'2024-02-02',"
            ++ "'items':[{'name':'Pen','price':1.00,'quantity':3,'category':'Tools','rating':4.50},"
            ++ "{'name':'Pen','price':1.00,'quantity':3,'category':'Tools','rating':4.50}]}").
Proof. repeat split; vm_compute; reflexivity. Qed.

(** C6: every sequence-of-record field ([Order.items] and
    [Company.employees] of working_reflection_demo.cpp) is written as the
    bracket pair around the element texts joined by commas: nothing between
    the brackets for no element, the element alone for one, and, for N
    elements, N-1 commas besides the element texts. *)
Theorem C6_sequence_fields :
  (forall o : Comprehensive.Order.t,
      Comprehensive.ReflectionSerializer_Order_serialize o
      = Order_text (Printf.general 6 (Comprehensive.Order.total_amount o))
          (map Comprehensive.ReflectionSerializer_Product_serialize
               (Comprehensive.Order.items o)) o)
  /\ (forall c : Demo.Company.t,
      WorkingDemo.ReflectionSerializer_Company_serialize c
      = Company_text (map WorkingDemo.ReflectionSerializer_Person_serialize
                          (Demo.Company.employees c)) c)
  /\ sequence_text [] = "[]"
  /\ (forall x : string, sequence_text [x] = "[" ++ x ++ "]")
  /\ (forall (x y : string) (l : list string),
      sequence_text (x :: y :: l)
      = "[" ++ x ++ "," ++ String.concat "," (y :: l) ++ "]")
  /\ (forall texts : list string,
      String.length (sequence_text texts)
      = (2 + total_length texts + (List.length texts - 1))%nat).
Proof.
  split; [exact generic_Order_text |].
  split; [exact working_Company_text |].
  split; [reflexivity |].
  split; [reflexivity |].
  split.
  - intros x y l. unfold sequence_text.
    change (String.concat "," (x :: y :: l))
      with (x ++ "," ++ String.concat "," (y :: l)).
    now rewrite !append_assoc.
  - intros texts. unfold sequence_text.
    cbn [append String.length]. rewrite length_append, concat_length.
    cbn [String.length]. lia.
Qed.

(** * Field order *)

Lemma drop_app (a r : string) : drop (String.length a) (a ++ r) = r.
Proof. induction a as [| c a IH]; simpl; [destruct r; reflexivity | exact IH]. Qed.

Lemma prefix_app (p r : string) : String.prefix p (p ++ r) = true.
Proof.
  induction p as [| c p IH]; simpl; [destruct r; reflexivity |].
  destruct (ascii_dec c c) as [_ | N]; [exact IH | now elim N].
Qed.

Lemma occurs_at_app (a p r : string) :
  occurs_at p (String.length a) (a ++ p ++ r) = true.
Proof. unfold occurs_at. now rewrite drop_app, prefix_app. Qed.

Lemma occurs_then_intro (a p b q c : string) :
  occurs_then p q (a ++ p ++ b ++ q ++ c) = true.
Proof.
  unfold occurs_then. apply existsb_exists.
  exists (String.length a). split.
  - apply in_seq. rewrite !length_append. lia.
  - apply andb_true_intro. split; [apply occurs_at_app |].
    apply existsb_exists.
    exists (String.length (a ++ p ++ b)). split.
    + apply in_seq. rewrite !length_append. lia.
    + replace (a ++ p ++ b ++ q ++ c) with ((a ++ p ++ b) ++ q ++ c)
        by now rewrite !append_assoc.
      apply occurs_at_app.
Qed.

(** C7, as stated, fails for [Order]: the registered names put [items]
    before [total_amount], and the text written for [order_one] has
    [total_amount] before [items], so no choice of value texts makes it the
    object text of the registered names in their order. *)
Lemma C7_Order_not_in_registration_order :
  Comprehensive.get_member_names Comprehensive.TOrder
    = ["order_id"; "customer_name"; "items"; "total_amount"; "order_date"]
  /\ Comprehensive.ReflectionSerializer_Order_serialize order_one
    = cstr "{'order_id':1,'customer_name':'Bob','total_amount':1,'order_date':'2024-01-01','items':[]}"
  /\ ~ registration_order_text
         (Comprehensive.get_member_names Comprehensive.TOrder)
         (Comprehensive.ReflectionSerializer_Order_serialize order_one).
Proof.
  split; [reflexivity |].
  split; [vm_compute; reflexivity |].
  intros (values & Hlen & E).
  destruct values as [| v1 [| v2 [| v3 [| v4 [| v5 [| v6 values]]]]]];
    try discriminate Hlen. clear Hlen.
  assert (O : occurs_then (quoted "items" ++ ":") (quoted "total_amount" ++ ":")
                (Comprehensive.ReflectionSerializer_Order_serialize order_one) = true).
  { rewrite E.
    replace (object_text
               (combine (Comprehensive.get_member_names Comprehensive.TOrder)
                  [v1; v2; v3; v4; v5]))
      with ((("{" ++ quoted "order_id" ++ ":" ++ v1 ++ ","
                  ++ quoted "customer_name" ++ ":" ++ v2 ++ ",")
              ++ (quoted "items" ++ ":") ++ (v3 ++ ",")
              ++ (quoted "total_amount" ++ ":")
              ++ (v4 ++ "," ++ quoted "order_date" ++ ":" ++ v5 ++ "}")))
      by (unfold Comprehensive.get_member_names; stream_norm; reflexivity).
    apply occurs_then_intro. }
  vm_compute in O. discriminate O.
Qed.

(** C7, amended: every serializer writes a brace-wrapped, comma-separated
    sequence of name:value pairs.  For [Person] and [Product] the names are
    the registered member names in their order.  For [Order] the scalar
    fields come in their registered order and the sequence field [items]
    comes last: order_id, customer_name, total_amount, order_date, items.
    [Company] of working_reflection_demo.cpp is laid out the same way. *)
Theorem C7_field_order :
  (forall p : Comprehensive.Person.t,
      Comprehensive.ReflectionSerializer_Person_serialize p
      = object_text
          (combine (Comprehensive.get_member_names Comprehensive.TPerson)
             [ quoted (Comprehensive.Person.name p);
               Printf.int_string (Comprehensive.Person.age p);
               Printf.fixed 2 (Comprehensive.Person.salary p);
               quoted (Comprehensive.Person.department p);
               bool_text (Comprehensive.Person.is_active p) ]))
  /\ (forall q : Comprehensive.Product.t,
      Comprehensive.ReflectionSerializer_Product_serialize q
      = object_text
          (combine (Comprehensive.get_member_names Comprehensive.TProduct)
             [ quoted (Comprehensive.Product.name q);
               Printf.fixed 2 (Comprehensive.Product.price q);
               Printf.int_string (Comprehensive.Product.quantity q);
               quoted (Comprehensive.Product.category q);
               Printf.fixed 2 (Comprehensive.Product.rating q) ]))
  /\ (forall o : Comprehensive.Order.t,
      Comprehensive.ReflectionSerializer_Order_serialize o
      = object_text
          (combine Order_fields_written
             [ Printf.int_string (Comprehensive.Order.order_id o);
               quoted (Comprehensive.Order.customer_name o);
               Printf.general 6 (Comprehensive.Order.total_amount o);
               quoted (Comprehensive.Order.order_date o);
               sequence_text
                 (map Comprehensive.ReflectionSerializer_Product_serialize
                      (Comprehensive.Order.items o)) ]))
  /\ Order_fields_written
     = (filter (fun n => negb (String.eqb n "items"))
          (Comprehensive.get_member_names Comprehensive.TOrder) ++ ["items"])%list
  /\ (forall c : Demo.Company.t,
      WorkingDemo.ReflectionSerializer_Company_serialize c
      = object_text
          (combine Company_fields_written
             [ quoted (Demo.Company.name c);
               Printf.general 6 (Demo.Company.revenue c);
               sequence_text
                 (map WorkingDemo.ReflectionSerializer_Person_serialize
                      (Demo.Company.employees c)) ]))
  /\ Company_fields_written
     = (filter (fun n => negb (String.eqb n "employees"))
          (WorkingDemo.get_member_names WorkingDemo.TCompany) ++ ["employees"])%list.
Proof.
  split; [intros p; rewrite generic_Person_text; reflexivity |].
  split; [intros q; rewrite generic_Product_text; reflexivity |].
  split; [intros o; rewrite generic_Order_text; reflexivity |].
  split; [reflexivity |].
  split; [intros c; rewrite working_Company_text; reflexivity |].
  reflexivity.
Qed.

(** * Records without registered fields *)

(** C8: a record type with no registered field is written as the two
    characters of an empty object, an open brace and a close brace. *)
Theorem C8_no_fields_empty_object
    (Other : Type) (T : PaperDemo.type) (obj : PaperDemo.instance Other T)
    (Hnone : PaperDemo.get_member_names T = []) :
  PaperDemo.ReflectionSerializer_serialize Other T obj = Some "{}"
  /\ option_map String.length (PaperDemo.ReflectionSerializer_serialize Other T obj)
     = Some 2%nat
  /\ PaperDemo.member_count (PaperDemo.reflexpr T) = 0%nat.
Proof.
  destruct T; try discriminate Hnone.
  repeat split.
Qed.

Lemma C8_unit_is_empty_object :
  PaperDemo.ReflectionSerializer_serialize unit PaperDemo.TOther tt = Some "{}"
  /\ option_map String.length
       (PaperDemo.ReflectionSerializer_serialize unit PaperDemo.TOther tt)
     = Some 2%nat
  /\ PaperDemo.member_count (PaperDemo.reflexpr PaperDemo.TOther) = 0%nat.
Proof.
  apply (C8_no_fields_empty_object unit PaperDemo.TOther tt). reflexivity.
Defined.

(** * Benchmark results *)

(** C9: with no measurement recorded, also after [clear], [get_result]
    returns the result with all four times 0.0, no iteration and the data
    size it was given; it is a total function and raises nothing. *)
Theorem C9_get_result_without_measurements :
  forall (b : Comprehensive.AdvancedBenchmark) (data_size : nat),
    Comprehensive.get_result Comprehensive.new_benchmark data_size
    = zero_result data_size
    /\ Comprehensive.get_result (Comprehensive.clear b) data_size
       = zero_result data_size
    /\ Comprehensive.min_time_ms (Comprehensive.get_result (Comprehensive.clear b) data_size)
       = S754_zero false
    /\ Comprehensive.max_time_ms (Comprehensive.get_result (Comprehensive.clear b) data_size)
       = S754_zero false
    /\ Comprehensive.avg_time_ms (Comprehensive.get_result (Comprehensive.clear b) data_size)
       = S754_zero false
    /\ Comprehensive.std_dev_ms (Comprehensive.get_result (Comprehensive.clear b) data_size)
       = S754_zero false
    /\ Comprehensive.iterations (Comprehensive.get_result (Comprehensive.clear b) data_size)
       = 0%nat
    /\ Comprehensive.data_size (Comprehensive.get_result (Comprehensive.clear b) data_size)
       = data_size.
Proof.
  intros b data_size.
  assert (E : Comprehensive.get_result (Comprehensive.clear b) data_size
              = zero_result data_size).
  { unfold Comprehensive.get_result, Comprehensive.clear. reflexivity. }
  split; [reflexivity |].
  split; [exact E |].
  rewrite E. repeat split.
Qed.

(** ** The order of binary64 values that are not NaN *)

Ltac compare_cases :=
  repeat match goal with
    | H : context [Z.compare ?a ?b] |- _ =>
        destruct (Z.compare_spec a b); try discriminate H
    | |- context [Z.compare ?a ?b] => destruct (Z.compare_spec a b)
    | H : context [Pos.compare_cont Eq ?a ?b] |- _ =>
        change (Pos.compare_cont Eq a b) with (Pos.compare a b) in H;
        destruct (Pos.compare_spec a b); try discriminate H
    | |- context [Pos.compare_cont Eq ?a ?b] =>
        change (Pos.compare_cont Eq a b) with (Pos.compare a b);
        destruct (Pos.compare_spec a b)
    end.

Lemma leb_trans (x y z : double) :
  Double.leb x y = true -> Double.leb y z = true -> Double.leb x z = true.
Proof.
  unfold Double.leb, SFleb, SFcompare.
  destruct x as [[] | [] | | [] m1 e1], y as [[] | [] | | [] m2 e2],
    z as [[] | [] | | [] m3 e3];
    intros H1 H2; try reflexivity; try discriminate H1; try discriminate H2;
    compare_cases; subst; simpl in *; try reflexivity; try lia;
    try discriminate.
Qed.

Lemma ltb_leb (x y : double) : Double.ltb x y = true -> Double.leb x y = true.
Proof.
  unfold Double.ltb, Double.leb, SFltb, SFleb.
  destruct (SFcompare x y) as [[] |]; intros H; try discriminate H; reflexivity.
Qed.

Lemma not_ltb_leb (x y : double) :
  Double.is_nan x = false -> Double.is_nan y = false ->
  Double.ltb x y = false -> Double.leb y x = true.
Proof.
  unfold Double.ltb, Double.leb, SFltb, SFleb, SFcompare.
  destruct x as [[] | [] | | [] m1 e1], y as [[] | [] | | [] m2 e2];
    intros Hx Hy H; try reflexivity; try discriminate;
    compare_cases; subst; simpl in *; try reflexivity; try lia;
    try discriminate.
Qed.

Lemma leb_refl (x : double) : Double.is_nan x = false -> Double.leb x x = true.
Proof.
  intros Hx. apply not_ltb_leb; try assumption.
  unfold Double.ltb, SFltb, SFcompare.
  destruct x as [[] | [] | | [] m e]; try reflexivity; try discriminate;
    rewrite Z.compare_refl;
    change (Pos.compare_cont Eq m m) with (Pos.compare m m);
    rewrite Pos.compare_refl; reflexivity.
Qed.

(** ** [min_element] and [max_element] *)

Lemma min_element_from_spec (rest : list double) :
  forall smallest : double,
    no_nan (smallest :: rest) ->
    let r := Comprehensive.min_element_from smallest rest in
    In r (smallest :: rest)
    /\ Double.leb r smallest = true
    /\ forall t : double, In t rest -> Double.leb r t = true.
Proof.
  induction rest as [| x rest IH]; intros smallest Hnan; cbn zeta.
  - simpl. split; [now left |]. split; [| intros t []].
    apply leb_refl. now inversion Hnan.
  - inversion Hnan as [| ? ? Hs Hrest]; subst.
    inversion Hrest as [| ? ? Hx Hrest']; subst.
    cbn [Comprehensive.min_element_from].
    destruct (Double.ltb x smallest) eqn:Hlt.
    + destruct (IH x Hrest) as (Hin & Hle & Hall).
      split; [now right |].
      split; [apply leb_trans with x; [exact Hle | now apply ltb_leb] |].
      intros t [<- | Ht]; [exact Hle | now apply Hall].
    + destruct (IH smallest (Forall_cons _ Hs Hrest')) as (Hin & Hle & Hall).
      split; [destruct Hin as [<- | Hin]; [now left | now right; right] |].
      split; [exact Hle |].
      intros t [<- | Ht]; [| now apply Hall].
      apply leb_trans with smallest; [exact Hle | now apply not_ltb_leb].
Qed.

Lemma max_element_from_spec (rest : list double) :
  forall largest : double,
    no_nan (largest :: rest) ->
    let r := Comprehensive.max_element_from largest rest in
    In r (largest :: rest)
    /\ Double.leb largest r = true
    /\ forall t : double, In t rest -> Double.leb t r = true.
Proof.
  induction rest as [| x rest IH]; intros largest Hnan; cbn zeta.
  - simpl. split; [now left |]. split; [| intros t []].
    apply leb_refl. now inversion Hnan.
  - inversion Hnan as [| ? ? Hs Hrest]; subst.
    inversion Hrest as [| ? ? Hx Hrest']; subst.
    cbn [Comprehensive.max_element_from].
    destruct (Double.ltb largest x) eqn:Hlt.
    + destruct (IH x Hrest) as (Hin & Hle & Hall).
      split; [now right |].
      split; [apply leb_trans with x; [now apply ltb_leb | exact Hle] |].
      intros t [<- | Ht]; [exact Hle | now apply Hall].
    + destruct (IH largest (Forall_cons _ Hs Hrest')) as (Hin & Hle & Hall).
      split; [destruct Hin as [<- | Hin]; [now left | now right; right] |].
      split; [exact Hle |].
      intros t [<- | Ht]; [| now apply Hall].
      apply leb_trans with largest; [now apply not_ltb_leb | exact Hle].
Qed.

Lemma accumulate_fold (l : list double) :
  forall init : double,
    Comprehensive.accumulate l init = fold_left Double.add l init.
Proof.
  induction l as [| x l IH]; intros init; simpl; [reflexivity | apply IH].
Qed.

Lemma variance_loop_fold (l : list double) (avg : double) :
  forall variance : double,
    Comprehensive.variance_loop l avg variance
    = fold_left Double.add
        (map (fun t => Double.mul (Double.sub t avg) (Double.sub t avg)) l)
        variance.
Proof.
  induction l as [| x l IH]; intros variance; simpl; [reflexivity | apply IH].
Qed.

(** C3: for a non-empty sequence of recorded durations, none of them NaN,
    the result has the smallest trial as min, the largest as max, the sum
    divided by the count as mean, and the population standard deviation
    [sqrt(sum((t - mean)^2) / count)]; the count is the number of trials. *)
Theorem C3_result_statistics
    (trials : list double) (size : nat)
    (Hnonempty : trials <> [])
    (Hnumbers : no_nan trials) :
  let r := Comprehensive.get_result (Comprehensive.mk_AdvancedBenchmark trials) size in
  smallest_of (Comprehensive.min_time_ms r) trials
  /\ largest_of (Comprehensive.max_time_ms r) trials
  /\ Comprehensive.avg_time_ms r = mean_of trials
  /\ Comprehensive.std_dev_ms r = population_std_dev_of trials
  /\ Comprehensive.iterations r = List.length trials
  /\ Comprehensive.data_size r = size.
Proof.
  destruct trials as [| first rest]; [contradiction |].
  cbn zeta. unfold Comprehensive.get_result.
  cbn [Comprehensive.measurements_ Comprehensive.min_time_ms
       Comprehensive.max_time_ms Comprehensive.avg_time_ms
       Comprehensive.std_dev_ms Comprehensive.iterations Comprehensive.data_size].
  destruct (min_element_from_spec rest first Hnumbers) as (Hmin_in & Hmin_first & Hmin).
  destruct (max_element_from_spec rest first Hnumbers) as (Hmax_in & Hmax_first & Hmax).
  split.
  { split; [exact Hmin_in |]. intros t [<- | Ht]; [exact Hmin_first | now apply Hmin]. }
  split.
  { split; [exact Hmax_in |]. intros t [<- | Ht]; [exact Hmax_first | now apply Hmax]. }
  split.
  { unfold mean_of, sum_of, count_of. now rewrite accumulate_fold. }
  split.
  { unfold population_std_dev_of, mean_of, sum_of, count_of.
    now rewrite accumulate_fold, variance_loop_fold. }
  split; reflexivity.
Qed.

(** The trials 10, 20 and 30 ms give min 10, max 30, mean 20 and the
    standard deviation sqrt(200/3), which lies between 8.16 and 8.17. *)
Lemma C3_trials_10_20_30 :
  let r := Comprehensive.get_result
             (Comprehensive.mk_AdvancedBenchmark trials_10_20_30) 100 in
  (smallest_of (Comprehensive.min_time_ms r) trials_10_20_30
   /\ largest_of (Comprehensive.max_time_ms r) trials_10_20_30
   /\ Comprehensive.avg_time_ms r = mean_of trials_10_20_30
   /\ Comprehensive.std_dev_ms r = population_std_dev_of trials_10_20_30
   /\ Comprehensive.iterations r = 3%nat
   /\ Comprehensive.data_size r = 100%nat)
  /\ Comprehensive.min_time_ms r = Double.of_Z 10
  /\ Comprehensive.max_time_ms r = Double.of_Z 30
  /\ Comprehensive.avg_time_ms r = Double.of_Z 20
  /\ Comprehensive.std_dev_ms r
     = Double.sqrt (Double.div (Double.of_Z 200) (Double.of_Z 3))
  /\ Double.ltb (lit 816 100) (Comprehensive.std_dev_ms r) = true
  /\ Double.ltb (Comprehensive.std_dev_ms r) (lit 817 100) = true.
Proof.
  cbn zeta. split.
  - apply (C3_result_statistics trials_10_20_30 100).
    + discriminate.
    + repeat constructor.
  - repeat split; vm_compute; reflexivity.
Defined.

(** * Overhead of the generic path *)

Lemma guarded_overhead_zero_mean (r : double) (s : bool) :
  Comprehensive.overhead_percent r (S754_zero s) = Double.zero
  /\ WorkingDemo.overhead_percent r (S754_zero s) = Double.zero.
Proof. split; reflexivity. Qed.

Lemma guarded_overhead_positive_mean (r m : double) :
  Double.ltb Double.zero m = true ->
  Comprehensive.overhead_percent r m
    = Double.mul (Double.sub (Double.div r m) (lit 1 1)) (lit 100 1)
  /\ WorkingDemo.overhead_percent r m
    = Double.mul (Double.sub (Double.div r m) (lit 1 1)) (lit 100 1).
Proof.
  intros H. unfold Comprehensive.overhead_percent, WorkingDemo.overhead_percent.
  now rewrite H.
Qed.

(** C4 at the failing input: when both timed loops of
    [benchmark_serialization] in mock_reflection_demo.cpp take less than a
    microsecond, the manual time is 0.0 and the overhead it prints is
    0.0 / 0.0 - 1.0 times 100.0, a NaN; with a reflection time of 5 ms it is
    +infinity.  The two guarded routines return 0.0 for a zero mean and the
    quotient formula for a positive mean. *)
Theorem C4_unguarded_overhead_divides_by_zero :
  PaperDemo.benchmark_serialization clock_stopped ([] : list Demo.Person.t) 0
    = (Double.zero, Double.zero, S754_nan)
  /\ PaperDemo.overhead_percent (lit 5 1) Double.zero = S754_infinity false
  /\ WorkingDemo.benchmark_serialization clock_stopped [] 0
    = (Double.zero, Double.zero, Double.zero)
  /\ (forall (r : double) (s : bool),
        Comprehensive.overhead_percent r (S754_zero s) = Double.zero
        /\ WorkingDemo.overhead_percent r (S754_zero s) = Double.zero)
  /\ (forall r m : double,
        Double.ltb Double.zero m = true ->
        Comprehensive.overhead_percent r m = PaperDemo.overhead_percent r m
        /\ WorkingDemo.overhead_percent r m = PaperDemo.overhead_percent r m).
Proof.
  split; [vm_compute; reflexivity |].
  split; [vm_compute; reflexivity |].
  split; [vm_compute; reflexivity |].
  split; [exact guarded_overhead_zero_mean |].
  intros r m H. unfold PaperDemo.overhead_percent.
  now apply guarded_overhead_positive_mean.
Qed.

(** * Number of runs *)

Lemma timing_loop_no_run (clk : clock) (calls : nat)
    (rb mb : Comprehensive.AdvancedBenchmark) :
  Comprehensive.timing_loop clk 0 calls rb mb = (rb, mb).
Proof. reflexivity. Qed.

(** C5, as stated, fails: with [runs = 0] the harness completes and
    returns two all-zero results and the overhead 0.0; it does not fail
    with [InvalidConfigurationError]. *)
Lemma C5_zero_runs_complete :
  Comprehensive.benchmark_serialization_comprehensive clock_1ms [alice] 0
    = Completed
        (Comprehensive.mk_Comparison (zero_result 1) (zero_result 1) Double.zero)
  /\ Comprehensive.benchmark_serialization_comprehensive clock_1ms [alice] 0
     <> Failed InvalidConfigurationError.
Proof.
  split; [reflexivity | discriminate].
Qed.

(** C5, amended: the harness accepts any [runs]; for [runs <= 0] the timing
    loop does not run and the harness completes with two results whose
    times are 0.0 and whose iteration count is 0, with the number of
    objects as data size, and with the overhead 0.0. *)
Theorem C5_no_run_gives_zero_results
    (T : Type) (clk : clock) (objects : list T) (runs : Z)
    (Hruns : runs <= 0) :
  Comprehensive.benchmark_serialization_comprehensive clk objects runs
  = Completed
      (Comprehensive.mk_Comparison
         (zero_result (List.length objects)) (zero_result (List.length objects))
         Double.zero).
Proof.
  unfold Comprehensive.benchmark_serialization_comprehensive.
  replace (Z.to_nat runs) with 0%nat by lia.
  rewrite timing_loop_no_run. reflexivity.
Qed.

Lemma C5_minus_two_runs :
  -2 <= 0
  /\ Comprehensive.benchmark_serialization_comprehensive clock_1ms [alice] (-2)
     = Completed
         (Comprehensive.mk_Comparison (zero_result 1) (zero_result 1) Double.zero).
Proof.
  split; [lia |].
  apply (C5_no_run_gives_zero_results _ clock_1ms [alice] (-2)). lia.
Defined.

(** * Property binding *)

Lemma call_each_trace (callback : Type) (callbacks : list callback) :
  forall trace : list callback,
    Binding.call_each callbacks trace = (trace ++ callbacks)%list.
Proof.
  induction callbacks as [| cb rest IH]; intros trace; simpl.
  - now rewrite app_nil_r.
  - rewrite IH, <- app_assoc. reflexivity.
Qed.

Lemma bind_name_changed_all (callback : Type) (cbs : list callback) :
  forall m : Binding.DataModel callback,
    Binding.name_changed_callbacks (fold_left Binding.bind_name_changed cbs m)
    = (Binding.name_changed_callbacks m ++ cbs)%list.
Proof.
  induction cbs as [| cb cbs IH]; intros m; simpl.
  - now rewrite app_nil_r.
  - rewrite IH. simpl. now rewrite <- app_assoc.
Qed.

Lemma bind_value_changed_all (callback : Type) (cbs : list callback) :
  forall m : Binding.DataModel callback,
    Binding.value_changed_callbacks (fold_left Binding.bind_value_changed cbs m)
    = (Binding.value_changed_callbacks m ++ cbs)%list.
Proof.
  induction cbs as [| cb cbs IH]; intros m; simpl.
  - now rewrite app_nil_r.
  - rewrite IH. simpl. now rewrite <- app_assoc.
Qed.

Lemma bind_active_changed_all (callback : Type) (cbs : list callback) :
  forall m : Binding.DataModel callback,
    Binding.active_changed_callbacks (fold_left Binding.bind_active_changed cbs m)
    = (Binding.active_changed_callbacks m ++ cbs)%list.
Proof.
  induction cbs as [| cb cbs IH]; intros m; simpl.
  - now rewrite app_nil_r.
  - rewrite IH. simpl. now rewrite <- app_assoc.
Qed.

(** C10: each setter of [DataModel] leaves the model as it is and calls
    nothing when the new value equals the stored one; when it differs, the
    setter stores it, keeps every other member, and calls the callbacks of
    that property, each once, in the order of the vector.  Binding appends
    to the vector, so that order is the order of registration. *)
Theorem C10_setters_notify_on_change :
  forall (callback : Type) (m : Binding.DataModel callback),
    (forall new_name : string,
        (Binding.name m = new_name -> Binding.set_name m new_name = (m, []))
        /\ (Binding.name m <> new_name ->
            Binding.set_name m new_name
            = (Binding.mk_DataModel new_name (Binding.value m) (Binding.active m)
                 (Binding.name_changed_callbacks m)
                 (Binding.value_changed_callbacks m)
                 (Binding.active_changed_callbacks m),
               Binding.name_changed_callbacks m)))
    /\ (forall new_value : Z,
        (Binding.value m = new_value -> Binding.set_value m new_value = (m, []))
        /\ (Binding.value m <> new_value ->
            Binding.set_value m new_value
            = (Binding.mk_DataModel (Binding.name m) new_value (Binding.active m)
                 (Binding.name_changed_callbacks m)
                 (Binding.value_changed_callbacks m)
                 (Binding.active_changed_callbacks m),
               Binding.value_changed_callbacks m)))
    /\ (forall new_active : bool,
        (Binding.active m = new_active -> Binding.set_active m new_active = (m, []))
        /\ (Binding.active m <> new_active ->
            Binding.set_active m new_active
            = (Binding.mk_DataModel (Binding.name m) (Binding.value m) new_active
                 (Binding.name_changed_callbacks m)
                 (Binding.value_changed_callbacks m)
                 (Binding.active_changed_callbacks m),
               Binding.active_changed_callbacks m)))
    /\ (forall cbs : list callback,
        Binding.name_changed_callbacks (fold_left Binding.bind_name_changed cbs m)
          = (Binding.name_changed_callbacks m ++ cbs)%list
        /\ Binding.value_changed_callbacks (fold_left Binding.bind_value_changed cbs m)
          = (Binding.value_changed_callbacks m ++ cbs)%list
        /\ Binding.active_changed_callbacks (fold_left Binding.bind_active_changed cbs m)
          = (Binding.active_changed_callbacks m ++ cbs)%list).
Proof.
  intros callback m.
  split; [| split; [| split]].
  - intros new_name. unfold Binding.set_name. split; intros H.
    + apply String.eqb_eq in H. now rewrite H.
    + apply String.eqb_neq in H. rewrite H. cbn [negb].
      now rewrite call_each_trace.
  - intros new_value. unfold Binding.set_value. split; intros H.
    + apply Z.eqb_eq in H. now rewrite H.
    + apply Z.eqb_neq in H. rewrite H. cbn [negb].
      now rewrite call_each_trace.
  - intros new_active. unfold Binding.set_active. split; intros H.
    + apply Bool.eqb_true_iff in H. now rewrite H.
    + apply Bool.eqb_false_iff in H. rewrite H. cbn [negb].
      now rewrite call_each_trace.
  - intros cbs.
    split; [apply bind_name_changed_all |].
    split; [apply bind_value_changed_all | apply bind_active_changed_all].
Qed.

(** * Recorded durations are numbers

  A measurement is an integer count of microseconds, converted to binary64
  and divided by 1000.0: rounding a non-negative mantissa never gives a
  NaN, so no recorded duration is one. *)

Lemma shr_1_nonneg (mrs : shr_record) :
  0 <= shr_m mrs -> 0 <= shr_m (shr_1 mrs).
Proof.
  destruct mrs as [[| [p | p |] | [p | p |]] r s]; simpl; lia.
Qed.

Lemma iter_shr_1_nonneg (p : positive) :
  forall mrs : shr_record,
    0 <= shr_m mrs -> 0 <= shr_m (iter_pos shr_1 p mrs).
Proof.
  induction p as [p IH | p IH |]; intros mrs H; simpl.
  - apply IH, IH, shr_1_nonneg, H.
  - apply IH, IH, H.
  - apply shr_1_nonneg, H.
Qed.

Lemma shr_fexp_nonneg (m e : Z) (l : location) :
  0 <= m -> 0 <= shr_m (fst (shr_fexp Double.prec Double.emax m e l)).
Proof.
  intros H. unfold shr_fexp, shr.
  assert (H0 : 0 <= shr_m (shr_record_of_loc m l)) by (destruct l as [| []]; exact H).
  destruct (fexp Double.prec Double.emax (Zdigits2 m + e) - e) as [| p | p]; simpl;
    try exact H0.
  now apply iter_shr_1_nonneg.
Qed.

Lemma round_nearest_even_nonneg (m : Z) (l : location) :
  0 <= m -> 0 <= round_nearest_even m l.
Proof.
  intros H. destruct l as [| []]; simpl; try lia.
  destruct (Z.even m); lia.
Qed.

Lemma binary_round_aux_not_nan (sx : bool) (mx ex : Z) (lx : location) :
  0 <= mx ->
  Double.is_nan (binary_round_aux Double.prec Double.emax sx mx ex lx) = false.
Proof.
  intros H. unfold binary_round_aux.
  pose proof (shr_fexp_nonneg mx ex lx H) as H1.
  destruct (shr_fexp Double.prec Double.emax mx ex lx) as [mrs' e'].
  simpl in H1.
  pose proof (shr_fexp_nonneg _ e' loc_Exact
                (round_nearest_even_nonneg _ (loc_of_shr_record mrs') H1)) as H2.
  destruct (shr_fexp Double.prec Double.emax
              (round_nearest_even (shr_m mrs') (loc_of_shr_record mrs')) e' loc_Exact)
    as [mrs'' e''].
  simpl in H2.
  destruct (shr_m mrs'') as [| m | m]; [reflexivity | | lia].
  destruct (e'' <=? Double.emax - Double.prec); reflexivity.
Qed.

Lemma of_Z_not_nan (z : Z) : Double.is_nan (Double.of_Z z) = false.
Proof.
  unfold Double.of_Z, binary_normalize, binary_round.
  destruct z as [| m | m]; [reflexivity | |];
    destruct (shl_align m 0 _) as [mz ez]; now apply binary_round_aux_not_nan.
Qed.

Lemma div_by_finite_not_nan (x : double) (s : bool) (m : positive) (e : Z) :
  Double.is_nan x = false ->
  Double.is_nan (Double.div x (S754_finite s m e)) = false.
Proof.
  intros Hx. unfold Double.div, SFdiv.
  destruct x as [sx | sx | | sx mx ex]; try reflexivity; try discriminate Hx.
  unfold SFdiv_core_binary.
  set (s' := (ex - e
              - Z.min (fexp Double.prec Double.emax
                         (Zdigits2 (Z.pos mx) + ex - (Zdigits2 (Z.pos m) + e)))
                      (ex - e))).
  set (m' := match s' with
             | 0 => Z.pos mx
             | Z.pos _ => Z.shiftl (Z.pos mx) s'
             | Z.neg _ => 0
             end).
  assert (Hm' : 0 <= m').
  { subst m'. destruct s'; try lia. apply Z.shiftl_nonneg. lia. }
  pose proof (Z_div_mod m' (Z.pos m) eq_refl) as Hdiv.
  destruct (Z.div_eucl m' (Z.pos m)) as [q r].
  apply binary_round_aux_not_nan. nia.
Qed.

Lemma elapsed_ms_not_nan (start_time end_time : Z) :
  Double.is_nan (elapsed_ms start_time end_time) = false.
Proof.
  unfold elapsed_ms.
  change (lit 1000 1) with (S754_finite false 8796093022208000 (-43)).
  apply div_by_finite_not_nan, of_Z_not_nan.
Qed.

Lemma no_nan_snoc (l : list double) (x : double) :
  no_nan l -> Double.is_nan x = false -> no_nan (l ++ [x])%list.
Proof.
  intros Hl Hx. apply Forall_app. split; [exact Hl | now constructor].
Qed.

(** Every measurement the timing loop records is a number. *)
Lemma timing_loop_no_nan (clk : clock) (n : nat) :
  forall (calls : nat) (rb mb : Comprehensive.AdvancedBenchmark),
    no_nan (Comprehensive.measurements_ rb) ->
    no_nan (Comprehensive.measurements_ mb) ->
    no_nan (Comprehensive.measurements_
              (fst (Comprehensive.timing_loop clk n calls rb mb)))
    /\ no_nan (Comprehensive.measurements_
                 (snd (Comprehensive.timing_loop clk n calls rb mb))).
Proof.
  induction n as [| n IH]; intros calls rb mb Hr Hm.
  - split; assumption.
  - cbn [Comprehensive.timing_loop]. apply IH;
      unfold Comprehensive.add_measurement; cbn [Comprehensive.measurements_];
      apply no_nan_snoc; try assumption; apply elapsed_ms_not_nan.
Qed.

(** * The harness as a whole *)

Lemma timing_loop_lengths (clk : clock) (n : nat) :
  forall (calls : nat) (rb mb : Comprehensive.AdvancedBenchmark),
    List.length (Comprehensive.measurements_
                   (fst (Comprehensive.timing_loop clk n calls rb mb)))
    = (List.length (Comprehensive.measurements_ rb) + n)%nat
    /\ List.length (Comprehensive.measurements_
                      (snd (Comprehensive.timing_loop clk n calls rb mb)))
       = (List.length (Comprehensive.measurements_ mb) + n)%nat.
Proof.
  induction n as [| n IH]; intros calls rb mb.
  - simpl. lia.
  - cbn [Comprehensive.timing_loop].
    destruct (IH (calls + 4)%nat
                (Comprehensive.add_measurement rb (elapsed_ms (clk calls) (clk (calls + 1)%nat)))
                (Comprehensive.add_measurement mb
                   (elapsed_ms (clk (calls + 2)%nat) (clk (calls + 3)%nat))))
      as [Hr Hm].
    rewrite Hr, Hm. unfold Comprehensive.add_measurement.
    cbn [Comprehensive.measurements_]. rewrite !length_app. simpl. lia.
Qed.

Lemma get_result_counts (b : Comprehensive.AdvancedBenchmark) (size : nat) :
  Comprehensive.iterations (Comprehensive.get_result b size)
  = List.length (Comprehensive.measurements_ b)
  /\ Comprehensive.data_size (Comprehensive.get_result b size) = size.
Proof.
  unfold Comprehensive.get_result.
  destruct (Comprehensive.measurements_ b); split; reflexivity.
Qed.

(** The harness completes for every number of runs, and both results
    carry the number of runs made, which is [runs] or 0 for a negative
    [runs], and the number of objects as the data size. *)
Theorem X1_harness_counts
    (T : Type) (clk : clock) (objects : list T) (runs : Z) :
  exists c : Comprehensive.Comparison,
    Comprehensive.benchmark_serialization_comprehensive clk objects runs
      = Completed c
    /\ Comprehensive.iterations (Comprehensive.reflection_result c) = Z.to_nat runs
    /\ Comprehensive.iterations (Comprehensive.manual_result c) = Z.to_nat runs
    /\ Comprehensive.data_size (Comprehensive.reflection_result c)
       = List.length objects
    /\ Comprehensive.data_size (Comprehensive.manual_result c)
       = List.length objects.
Proof.
  unfold Comprehensive.benchmark_serialization_comprehensive.
  pose proof (timing_loop_lengths clk (Z.to_nat runs) 0
                Comprehensive.new_benchmark Comprehensive.new_benchmark) as [Hr Hm].
  destruct (Comprehensive.timing_loop clk (Z.to_nat runs) 0
              Comprehensive.new_benchmark Comprehensive.new_benchmark) as [rb mb].
  eexists. split; [reflexivity |].
  cbn [Comprehensive.reflection_result Comprehensive.manual_result].
  cbn [fst snd] in Hr, Hm.
  destruct (get_result_counts rb (List.length objects)) as [Hri Hrd].
  destruct (get_result_counts mb (List.length objects)) as [Hmi Hmd].
  rewrite Hri, Hmi, Hr, Hm. repeat split; assumption.
Qed.

Lemma get_result_min_le_max (b : Comprehensive.AdvancedBenchmark) (size : nat) :
  no_nan (Comprehensive.measurements_ b) ->
  Double.leb (Comprehensive.min_time_ms (Comprehensive.get_result b size))
             (Comprehensive.max_time_ms (Comprehensive.get_result b size)) = true.
Proof.
  intros Hnan. unfold Comprehensive.get_result.
  destruct (Comprehensive.measurements_ b) as [| first rest] eqn:E;
    [reflexivity |].
  cbn [Comprehensive.min_time_ms Comprehensive.max_time_ms].
  destruct (min_element_from_spec rest first Hnan) as (_ & Hmin & _).
  destruct (max_element_from_spec rest first Hnan) as (_ & Hmax & _).
  now apply leb_trans with first.
Qed.

(** Whatever the clock reads and however many runs are made, in both
    results of the harness the minimum time is at most the maximum time. *)
Theorem X2_harness_min_le_max
    (T : Type) (clk : clock) (objects : list T) (runs : Z) :
  exists c : Comprehensive.Comparison,
    Comprehensive.benchmark_serialization_comprehensive clk objects runs
      = Completed c
    /\ Double.leb (Comprehensive.min_time_ms (Comprehensive.reflection_result c))
                  (Comprehensive.max_time_ms (Comprehensive.reflection_result c))
       = true
    /\ Double.leb (Comprehensive.min_time_ms (Comprehensive.manual_result c))
                  (Comprehensive.max_time_ms (Comprehensive.manual_result c))
       = true.
Proof.
  unfold Comprehensive.benchmark_serialization_comprehensive.
  pose proof (timing_loop_no_nan clk (Z.to_nat runs) 0
                Comprehensive.new_benchmark Comprehensive.new_benchmark
                (Forall_nil _) (Forall_nil _)) as [Hr Hm].
  destruct (Comprehensive.timing_loop clk (Z.to_nat runs) 0
              Comprehensive.new_benchmark Comprehensive.new_benchmark) as [rb mb].
  eexists. split; [reflexivity |].
  cbn [Comprehensive.reflection_result Comprehensive.manual_result].
  split; now apply get_result_min_le_max.
Qed.

(** ** Signs of rounded values *)

Lemma binary_round_aux_sign (sx : bool) (mx ex : Z) (lx : location) :
  0 <= mx -> has_sign sx (binary_round_aux Double.prec Double.emax sx mx ex lx).
Proof.
  intros H. unfold binary_round_aux.
  pose proof (shr_fexp_nonneg mx ex lx H) as H1.
  destruct (shr_fexp Double.prec Double.emax mx ex lx) as [mrs' e'].
  simpl in H1.
  pose proof (shr_fexp_nonneg _ e' loc_Exact
                (round_nearest_even_nonneg _ (loc_of_shr_record mrs') H1)) as H2.
  destruct (shr_fexp Double.prec Double.emax
              (round_nearest_even (shr_m mrs') (loc_of_shr_record mrs')) e' loc_Exact)
    as [mrs'' e''].
  simpl in H2.
  destruct (shr_m mrs'') as [| m | m]; [reflexivity | | lia].
  destruct (e'' <=? Double.emax - Double.prec); reflexivity.
Qed.

Lemma of_Z_nonneg_sign (z : Z) : 0 <= z -> has_sign false (Double.of_Z z).
Proof.
  intros Hz. unfold Double.of_Z, binary_normalize, binary_round.
  destruct z as [| m | m]; [reflexivity | | lia].
  destruct (shl_align m 0 _) as [mz ez]. now apply binary_round_aux_sign.
Qed.

Lemma div_nonneg_sign (x : double) (m : positive) (e : Z) :
  has_sign false x -> has_sign false (Double.div x (S754_finite false m e)).
Proof.
  intros Hx. unfold Double.div, SFdiv.
  destruct x as [sx | sx | | sx mx ex]; simpl in Hx; subst; try reflexivity;
    try contradiction.
  unfold SFdiv_core_binary.
  set (s' := (ex - e
              - Z.min (fexp Double.prec Double.emax
                         (Zdigits2 (Z.pos mx) + ex - (Zdigits2 (Z.pos m) + e)))
                      (ex - e))).
  set (m' := match s' with
             | 0 => Z.pos mx
             | Z.pos _ => Z.shiftl (Z.pos mx) s'
             | Z.neg _ => 0
             end).
  assert (Hm' : 0 <= m').
  { subst m'. destruct s'; try lia. apply Z.shiftl_nonneg. lia. }
  pose proof (Z_div_mod m' (Z.pos m) eq_refl) as Hdiv.
  destruct (Z.div_eucl m' (Z.pos m)) as [q r].
  apply (binary_round_aux_sign (xorb false false)). nia.
Qed.

Lemma has_sign_false_nonneg (x : double) :
  has_sign false x -> Double.leb Double.zero x = true.
Proof.
  destruct x as [s | s | | s m e]; simpl; intros H; subst;
    try reflexivity; contradiction.
Qed.

Lemma nonneg_not_nan (x : double) :
  Double.leb Double.zero x = true -> Double.is_nan x = false.
Proof. destruct x; try reflexivity; discriminate. Qed.

(** A difference that a signed 64-bit count holds is not changed. *)
Lemma wrap64_small (z : Z) : - 2 ^ 63 <= z <= INT64_MAX -> wrap64 z = z.
Proof.
  unfold wrap64, INT64_MAX. intros H.
  rewrite Z.mod_small by lia. lia.
Qed.

Lemma elapsed_ms_nonneg (start_time end_time : Z) :
  start_time <= end_time ->
  end_time - start_time <= INT64_MAX ->
  Double.leb Double.zero (elapsed_ms start_time end_time) = true.
Proof.
  intros H Hrange. apply has_sign_false_nonneg. unfold elapsed_ms.
  change (lit 1000 1) with (S754_finite false 8796093022208000 (-43)).
  apply div_nonneg_sign, of_Z_nonneg_sign.
  unfold duration_cast_microseconds, duration_ns.
  rewrite wrap64_small by lia. apply Z.quot_pos; lia.
Qed.

Lemma timing_loop_nonneg (clk : clock) (Hsteady : steady clk)
    (Hrange : within_int64 clk) (n : nat) :
  forall (calls : nat) (rb mb : Comprehensive.AdvancedBenchmark),
    all_nonneg (Comprehensive.measurements_ rb) ->
    all_nonneg (Comprehensive.measurements_ mb) ->
    all_nonneg (Comprehensive.measurements_
                  (fst (Comprehensive.timing_loop clk n calls rb mb)))
    /\ all_nonneg (Comprehensive.measurements_
                     (snd (Comprehensive.timing_loop clk n calls rb mb))).
Proof.
  induction n as [| n IH]; intros calls rb mb Hr Hm.
  - split; assumption.
  - cbn [Comprehensive.timing_loop]. apply IH;
      unfold Comprehensive.add_measurement; cbn [Comprehensive.measurements_];
      (apply Forall_app; split; [assumption |]); constructor; try constructor;
      apply elapsed_ms_nonneg.
    + replace (calls + 1)%nat with (S calls) by lia. apply Hsteady.
    + replace (calls + 1)%nat with (S calls) by lia. apply Hrange.
    + replace (calls + 3)%nat with (S (calls + 2)) by lia. apply Hsteady.
    + replace (calls + 3)%nat with (S (calls + 2)) by lia. apply Hrange.
Qed.

Lemma get_result_min_nonneg (b : Comprehensive.AdvancedBenchmark) (size : nat) :
  all_nonneg (Comprehensive.measurements_ b) ->
  Double.leb Double.zero
    (Comprehensive.min_time_ms (Comprehensive.get_result b size)) = true.
Proof.
  intros Hall. unfold Comprehensive.get_result.
  destruct (Comprehensive.measurements_ b) as [| first rest]; [reflexivity |].
  cbn [Comprehensive.min_time_ms].
  assert (Hnan : no_nan (first :: rest)).
  { eapply Forall_impl; [| exact Hall]. intros x. apply nonneg_not_nan. }
  destruct (min_element_from_spec rest first Hnan) as (Hin & _ & _).
  unfold all_nonneg in Hall. rewrite Forall_forall in Hall. now apply Hall.
Qed.

(** With a clock that never goes back, and whose successive readings
    are no further apart than the signed 64-bit count of nanoseconds of
    [end - start] holds, no recorded duration is negative: the minimum
    time of both results of the harness is at least 0.0. *)
Theorem X3_steady_clock_nonnegative_times
    (T : Type) (clk : clock) (objects : list T) (runs : Z)
    (Hsteady : steady clk) (Hrange : within_int64 clk) :
  exists c : Comprehensive.Comparison,
    Comprehensive.benchmark_serialization_comprehensive clk objects runs
      = Completed c
    /\ Double.leb Double.zero
         (Comprehensive.min_time_ms (Comprehensive.reflection_result c)) = true
    /\ Double.leb Double.zero
         (Comprehensive.min_time_ms (Comprehensive.manual_result c)) = true.
Proof.
  unfold Comprehensive.benchmark_serialization_comprehensive.
  pose proof (timing_loop_nonneg clk Hsteady Hrange (Z.to_nat runs) 0
                Comprehensive.new_benchmark Comprehensive.new_benchmark
                (Forall_nil _) (Forall_nil _)) as [Hr Hm].
  destruct (Comprehensive.timing_loop clk (Z.to_nat runs) 0
              Comprehensive.new_benchmark Comprehensive.new_benchmark) as [rb mb].
  eexists. split; [reflexivity |].
  cbn [Comprehensive.reflection_result Comprehensive.manual_result].
  split; now apply get_result_min_nonneg.
Qed.

Lemma clock_1ms_steady : steady clock_1ms.
Proof. intros n. unfold clock_1ms. lia. Qed.

Lemma X3_clock_1ms_three_runs :
  exists c : Comprehensive.Comparison,
    Comprehensive.benchmark_serialization_comprehensive clock_1ms [alice] 3
      = Completed c
    /\ Double.leb Double.zero
         (Comprehensive.min_time_ms (Comprehensive.reflection_result c)) = true
    /\ Double.leb Double.zero
         (Comprehensive.min_time_ms (Comprehensive.manual_result c)) = true.
Proof.
  apply (X3_steady_clock_nonnegative_times _ clock_1ms [alice] 3).
  - intros n. unfold clock_1ms. lia.
  - intros n. unfold clock_1ms, INT64_MAX. lia.
Defined.

(** A duration shorter than a microsecond, forward or backward, is
    recorded as exactly 0.0: [duration_cast<microseconds>] truncates toward
    zero before the division by 1000.0. *)
Theorem X4_sub_microsecond_is_zero
    (start_time end_time : Z)
    (Hshort : -1000 < end_time - start_time < 1000) :
  elapsed_ms start_time end_time = S754_zero false
  /\ Demo.stop_and_get_ms start_time end_time = S754_zero false.
Proof.
  assert (E : elapsed_ms start_time end_time = S754_zero false).
  { unfold elapsed_ms, duration_cast_microseconds, duration_ns.
    rewrite wrap64_small by (unfold INT64_MAX; lia).
    assert (Q : Z.quot (end_time - start_time) 1000 = 0).
    { destruct (Z_le_gt_dec 0 (end_time - start_time)) as [Hp | Hn].
      - apply Z.quot_small. lia.
      - replace (end_time - start_time) with (- (start_time - end_time)) by lia.
        rewrite Z.quot_opp_l by lia. rewrite Z.quot_small; lia. }
    rewrite Q. reflexivity. }
  split; [exact E | exact E].
Qed.

Lemma X4_999_nanoseconds :
  elapsed_ms 5000 5999 = S754_zero false
  /\ Demo.stop_and_get_ms 5000 5999 = S754_zero false.
Proof.
  apply (X4_sub_microsecond_is_zero 5000 5999). lia.
Defined.

(** ** Rounding a positive integer gives a positive value *)

Lemma digits2_pos_bound (p : positive) :
  2 ^ (Z.pos (digits2_pos p) - 1) <= Z.pos p.
Proof.
  induction p as [p IH | p IH |]; simpl digits2_pos.
  - rewrite Pos2Z.inj_succ.
    replace (Z.succ (Z.pos (digits2_pos p)) - 1)
      with (Z.succ (Z.pos (digits2_pos p) - 1)) by lia.
    rewrite Z.pow_succ_r by lia. lia.
  - rewrite Pos2Z.inj_succ.
    replace (Z.succ (Z.pos (digits2_pos p)) - 1)
      with (Z.succ (Z.pos (digits2_pos p) - 1)) by lia.
    rewrite Z.pow_succ_r by lia. lia.
  - simpl. lia.
Qed.

Lemma shr_1_pow (j : Z) (mrs : shr_record) :
  1 <= j -> 2 ^ j <= shr_m mrs -> 2 ^ (j - 1) <= shr_m (shr_1 mrs).
Proof.
  intros Hj H.
  assert (E : 2 ^ j = 2 * 2 ^ (j - 1)).
  { replace j with (Z.succ (j - 1)) at 1 by lia. apply Z.pow_succ_r. lia. }
  assert (P : 0 < 2 ^ (j - 1)) by (apply Z.pow_pos_nonneg; lia).
  rewrite E in H. clear E. revert H P. generalize (2 ^ (j - 1)). intros b H P.
  destruct mrs as [[| [p | p |] | [p | p |]] r s]; cbn [shr_1 shr_m] in *; lia.
Qed.

Lemma iter_shr_1_pow (k : positive) :
  forall (j : Z) (mrs : shr_record),
    Z.pos k <= j -> 2 ^ j <= shr_m mrs ->
    2 ^ (j - Z.pos k) <= shr_m (iter_pos shr_1 k mrs).
Proof.
  induction k as [k IH | k IH |]; intros j mrs Hk H; simpl iter_pos.
  - replace (j - Z.pos k~1) with (j - 1 - Z.pos k - Z.pos k) by lia.
    apply IH; [lia |]. apply IH; [lia |]. apply shr_1_pow; [lia | exact H].
  - replace (j - Z.pos k~0) with (j - Z.pos k - Z.pos k) by lia.
    apply IH; [lia |]. apply IH; [lia | exact H].
  - apply shr_1_pow; [lia | exact H].
Qed.

Lemma shr_fexp_pos (m e : Z) (l : location) :
  0 < m -> emin Double.prec Double.emax <= e ->
  0 < shr_m (fst (shr_fexp Double.prec Double.emax m e l))
  /\ emin Double.prec Double.emax <= snd (shr_fexp Double.prec Double.emax m e l).
Proof.
  intros Hm He. destruct m as [| p | p]; try lia.
  unfold shr_fexp, shr.
  assert (H0 : shr_m (shr_record_of_loc (Z.pos p) l) = Z.pos p)
    by (destruct l as [| []]; reflexivity).
  pose proof (digits2_pos_bound p) as Hd.
  remember (fexp Double.prec Double.emax (Zdigits2 (Z.pos p) + e) - e) as n eqn:En.
  unfold fexp, emin, Double.prec, Double.emax in *. simpl Zdigits2 in En.
  destruct n as [| k | k]; cbn [fst snd]; try (rewrite H0; lia).
  split; [| lia].
  assert (Hk : Z.pos k <= Z.pos (digits2_pos p) - 1) by lia.
  pose proof (iter_shr_1_pow k (Z.pos (digits2_pos p) - 1)
                (shr_record_of_loc (Z.pos p) l) Hk) as Hit.
  rewrite H0 in Hit. specialize (Hit Hd).
  assert (0 < 2 ^ (Z.pos (digits2_pos p) - 1 - Z.pos k))
    by (apply Z.pow_pos_nonneg; lia).
  lia.
Qed.

Lemma round_nearest_even_ge (m : Z) (l : location) : m <= round_nearest_even m l.
Proof.
  destruct l as [| []]; simpl; try lia. destruct (Z.even m); lia.
Qed.

Lemma binary_round_aux_pos (sx : bool) (mx ex : Z) (lx : location) :
  0 < mx -> emin Double.prec Double.emax <= ex ->
  (exists (m : positive) (e : Z),
      binary_round_aux Double.prec Double.emax sx mx ex lx = S754_finite sx m e)
  \/ binary_round_aux Double.prec Double.emax sx mx ex lx = S754_infinity sx.
Proof.
  intros Hm He. unfold binary_round_aux.
  pose proof (shr_fexp_pos mx ex lx Hm He) as [H1 H1e].
  destruct (shr_fexp Double.prec Double.emax mx ex lx) as [mrs' e'].
  cbn [fst snd] in H1, H1e.
  pose proof (round_nearest_even_ge (shr_m mrs') (loc_of_shr_record mrs')) as Hr.
  assert (Hr' : 0 < round_nearest_even (shr_m mrs') (loc_of_shr_record mrs')) by lia.
  pose proof (shr_fexp_pos _ e' loc_Exact Hr' H1e) as [H2 _].
  destruct (shr_fexp Double.prec Double.emax
              (round_nearest_even (shr_m mrs') (loc_of_shr_record mrs')) e' loc_Exact)
    as [mrs'' e''].
  cbn [fst] in H2.
  destruct (shr_m mrs'') as [| m | m]; try lia.
  destruct (e'' <=? Double.emax - Double.prec); [left; eauto | now right].
Qed.

Lemma of_Z_pos (z : Z) :
  0 < z ->
  (exists (m : positive) (e : Z), Double.of_Z z = S754_finite false m e)
  \/ Double.of_Z z = S754_infinity false.
Proof.
  intros Hz. destruct z as [| p | p]; try lia.
  unfold Double.of_Z, binary_normalize, binary_round.
  destruct (shl_align p 0 (fexp Double.prec Double.emax (Z.pos (digits2_pos p) + 0)))
    as [mz ez] eqn:E.
  apply binary_round_aux_pos; [lia |].
  unfold shl_align in E.
  destruct (fexp Double.prec Double.emax (Z.pos (digits2_pos p) + 0) - 0) eqn:En;
    injection E as <- <-;
    unfold fexp, emin, Double.prec, Double.emax in *; lia.
Qed.

(** * The report of the harness *)

Lemma insert_string_mk (f : floatfield) (p : nat) (b s : string) :
  insert (mk_ostringstream f p b) s = mk_ostringstream f p (b ++ s).
Proof. reflexivity. Qed.

Lemma insert_size_t_mk (f : floatfield) (p : nat) (b : string) (n : nat) :
  @insert nat Report.insert_size_t (mk_ostringstream f p b) n
  = mk_ostringstream f p (b ++ Printf.int_string (Z.of_nat n)).
Proof. reflexivity. Qed.

Lemma insert_fixed_mk (f : floatfield) (p : nat) (b : string) :
  insert (mk_ostringstream f p b) std_fixed = mk_ostringstream ff_fixed p b.
Proof. reflexivity. Qed.

Lemma insert_setprecision_mk (f : floatfield) (p n : nat) (b : string) :
  insert (mk_ostringstream f p b) (std_setprecision n) = mk_ostringstream f n b.
Proof. reflexivity. Qed.

Lemma insert_double_fixed_mk (p : nat) (b : string) (x : double) :
  insert (mk_ostringstream ff_fixed p b) x
  = mk_ostringstream ff_fixed p (b ++ Printf.fixed p x).
Proof. reflexivity. Qed.

Create Rewrite HintDb ostream.
#[local] Hint Rewrite insert_string_mk insert_size_t_mk insert_fixed_mk
  insert_setprecision_mk insert_double_fixed_mk append_assoc : ostream.

Ltac cout_norm := autorewrite with ostream.

Lemma print_result_spec (cout : ostringstream) (test_name : string)
    (r : Comprehensive.BenchmarkResult) :
  Report.print_result cout test_name r
  = mk_ostringstream ff_fixed 3 (os_buf cout ++ result_text test_name r).
Proof.
  destruct cout as [f p b].
  unfold Report.print_result, result_text. cbn zeta. cbn [os_buf].
  cout_norm. reflexivity.
Qed.

(** The report of the harness holds the two results and the overhead the
    harness computes.  [print_result] sets [std::fixed] and precision 3 on
    [std::cout] and leaves them set.  For a [std::cout] in a state this
    program reaches (the float-field flag unset or fixed, any precision,
    every other flag at its default, as no code here changes one) and a
    report none of whose numbers is NaN, every time, both throughputs and
    the overhead are written in [%.3f], and the flags stay set after the
    report. *)
Theorem X5_report_in_three_decimals
    (T : Type) (type_name : string) (cout : ostringstream)
    (clk : clock) (objects : list T) (runs : Z)
    (c : Comprehensive.Comparison)
    (Hc : Comprehensive.benchmark_serialization_comprehensive clk objects runs
          = Completed c)
    (Hnumbers : no_nan (report_values c)) :
  Report.benchmark_serialization_comprehensive_output
    type_name cout clk objects runs
  = mk_ostringstream ff_fixed 3
      (os_buf cout
       ++ Report.endl ++ "=== Comprehensive Serialization Benchmark for "
       ++ type_name ++ " ===" ++ Report.endl
       ++ result_text "Reflection-based Serialization"
            (Comprehensive.reflection_result c)
       ++ result_text "Manual Serialization" (Comprehensive.manual_result c)
       ++ "  Performance overhead: "
       ++ Printf.fixed 3 (Comprehensive.overhead c) ++ "%" ++ Report.endl).
Proof.
  revert Hc.
  unfold Comprehensive.benchmark_serialization_comprehensive,
    Report.benchmark_serialization_comprehensive_output.
  destruct (Comprehensive.timing_loop clk (Z.to_nat runs) 0
              Comprehensive.new_benchmark Comprehensive.new_benchmark) as [rb mb].
  intros Hc. injection Hc as <-.
  cbn [Comprehensive.reflection_result Comprehensive.manual_result
       Comprehensive.overhead].
  destruct cout as [f p b]. cout_norm.
  rewrite !print_result_spec. cbn [os_buf]. cout_norm. reflexivity.
Qed.

(** Two runs over one person with a reading every millisecond, on a
    [std::cout] that holds a line already. *)
Lemma X5_report_of_two_runs :
  Report.benchmark_serialization_comprehensive_output
    "6Person" (mk_ostringstream ff_none 6 "start") clock_1ms [alice] 2
  = mk_ostringstream ff_fixed 3
      ("start"
       ++ Report.endl ++ "=== Comprehensive Serialization Benchmark for "
       ++ "6Person" ++ " ===" ++ Report.endl
       ++ result_text "Reflection-based Serialization"
            (Comprehensive.mk_BenchmarkResult
               (lit 1 1) (lit 1 1) (lit 1 1) Double.zero 2 1)
       ++ result_text "Manual Serialization"
            (Comprehensive.mk_BenchmarkResult
               (lit 1 1) (lit 1 1) (lit 1 1) Double.zero 2 1)
       ++ "  Performance overhead: " ++ "0.000" ++ "%" ++ Report.endl).
Proof.
  apply (X5_report_in_three_decimals
           Comprehensive.Person.t "6Person" (mk_ostringstream ff_none 6 "start")
           clock_1ms [alice] 2
           (Comprehensive.mk_Comparison
              (Comprehensive.mk_BenchmarkResult
                 (lit 1 1) (lit 1 1) (lit 1 1) Double.zero 2 1)
              (Comprehensive.mk_BenchmarkResult
                 (lit 1 1) (lit 1 1) (lit 1 1) Double.zero 2 1)
              Double.zero)).
  - vm_compute. reflexivity.
  - unfold no_nan. vm_compute. repeat constructor.
Defined.

Lemma throughput_without_measurements (size : nat) :
  (0 < size)%nat ->
  Report.throughput (Comprehensive.get_result Comprehensive.new_benchmark size)
  = S754_infinity false.
Proof.
  intros Hsize. unfold Report.throughput.
  cbn [Comprehensive.get_result Comprehensive.new_benchmark
       Comprehensive.measurements_ Comprehensive.data_size
       Comprehensive.avg_time_ms].
  change (Double.div Double.zero (lit 1000 1)) with (S754_zero false).
  destruct (of_Z_pos (Z.of_nat size)) as [(m & e & E) | E]; [lia | |];
    rewrite E; reflexivity.
Qed.

(** [print_result] divides the data size by the mean without a guard: for
    a benchmark without measurements and a data size above 0 the
    throughput is +infinity, and the report reads [inf objects/sec]. *)
Theorem X6_throughput_without_measurements
    (size : nat) (Hsize : (0 < size)%nat) :
  Report.throughput (Comprehensive.get_result Comprehensive.new_benchmark size)
    = S754_infinity false
  /\ forall (cout : ostringstream) (test_name : string),
      exists before : string,
        os_buf (Report.print_result cout test_name
                  (Comprehensive.get_result Comprehensive.new_benchmark size))
        = before ++ "  Throughput: inf objects/sec" ++ Report.endl.
Proof.
  pose proof (throughput_without_measurements size Hsize) as E.
  split; [exact E |].
  intros cout test_name. rewrite print_result_spec. cbn [os_buf].
  unfold result_text. rewrite E.
  change (Printf.fixed 3 (S754_infinity false)) with "inf".
  eexists.
  repeat rewrite <- append_assoc. f_equal.
  rewrite (append_assoc _ "inf" " objects/sec").
  rewrite (append_assoc _ "  Throughput: " _).
  reflexivity.
Qed.

Lemma X6_throughput_100_objects :
  Report.throughput (Comprehensive.get_result Comprehensive.new_benchmark 100)
    = S754_infinity false
  /\ forall (cout : ostringstream) (test_name : string),
      exists before : string,
        os_buf (Report.print_result cout test_name
                  (Comprehensive.get_result Comprehensive.new_benchmark 100))
        = before ++ "  Throughput: inf objects/sec" ++ Report.endl.
Proof.
  apply (X6_throughput_without_measurements 100). lia.
Defined.

(** * Decoding the serialized text *)

(** The text of a [Person] does not determine the person.  Text fields
    are written without escaping, so a quotation mark in the name or in the
    department moves the field borders, and the salary keeps two decimals
    (six significant digits in the manual serializer).  No function decodes
    every text back to the person it was written from, whether the text
    comes from the generic or from the manual serializer; the mock
    deserializer returns the same person for every text. *)
Theorem X7_no_decoder_for_person_text :
  (forall decode : string -> Comprehensive.Person.t,
      ~ (forall p : Comprehensive.Person.t,
            decode (Comprehensive.ReflectionSerializer_Person_serialize p) = p))
  /\ (forall decode : string -> Comprehensive.Person.t,
      ~ (forall p : Comprehensive.Person.t,
            decode (Comprehensive.manual_serialize_Person p) = p))
  /\ Comprehensive.ReflectionSerializer_Person_serialize salary_1001
     = Comprehensive.ReflectionSerializer_Person_serialize salary_1002
  /\ (forall p : Comprehensive.Person.t,
      Report.ReflectionSerializer_Person_deserialize
        (Comprehensive.ReflectionSerializer_Person_serialize p) = mock_person).
Proof.
  split; [| split; [| split]].
  - intros decode H.
    pose proof (H quoted_name_person) as H1.
    pose proof (H quoted_department_person) as H2.
    assert (E : Comprehensive.ReflectionSerializer_Person_serialize quoted_name_person
                = Comprehensive.ReflectionSerializer_Person_serialize
                    quoted_department_person) by (vm_compute; reflexivity).
    rewrite E, H2 in H1.
    apply (f_equal Comprehensive.Person.name) in H1. vm_compute in H1.
    discriminate H1.
  - intros decode H.
    pose proof (H quoted_name_person_manual) as H1.
    pose proof (H quoted_department_person_manual) as H2.
    assert (E : Comprehensive.manual_serialize_Person quoted_name_person_manual
                = Comprehensive.manual_serialize_Person
                    quoted_department_person_manual) by (vm_compute; reflexivity).
    rewrite E, H2 in H1.
    apply (f_equal Comprehensive.Person.name) in H1. vm_compute in H1.
    discriminate H1.
  - vm_compute. reflexivity.
  - intros p. reflexivity.
Qed.

(** * The type tables *)

Ltac names_distinct :=
  repeat (constructor; [simpl; intuition discriminate |]); constructor.

(** In each of the three programs the member count of [reflexpr<T>] is
    the number of member names registered for [T], no name is registered
    twice for a type, and in the two demo programs every member name has
    its member type. *)
Theorem X8_type_tables_consistent :
  (forall T : Comprehensive.type,
      Comprehensive.member_count (Comprehensive.reflexpr T)
      = List.length (Comprehensive.get_member_names T)
      /\ NoDup (Comprehensive.get_member_names T))
  /\ (forall T : WorkingDemo.type,
      WorkingMeta.member_count (WorkingMeta.reflexpr T)
      = List.length (WorkingDemo.get_member_names T)
      /\ List.length (WorkingMeta.get_member_types T)
         = List.length (WorkingDemo.get_member_names T)
      /\ NoDup (WorkingDemo.get_member_names T))
  /\ (forall T : PaperDemo.type,
      PaperDemo.member_count (PaperDemo.reflexpr T)
      = List.length (PaperDemo.get_member_names T)
      /\ List.length (PaperMeta.get_member_types T)
         = List.length (PaperDemo.get_member_names T)
      /\ NoDup (PaperDemo.get_member_names T)).
Proof.
  split; [| split].
  - intros []; (split; [reflexivity | names_distinct]).
  - intros []; (split; [reflexivity | split; [reflexivity | names_distinct]]).
  - intros []; (split; [reflexivity | split; [reflexivity | names_distinct]]).
Qed.

(** * The speedup of the type queries *)

(** The guard of the speedup tests the RTTI time and the division is by
    the reflection time: with a positive RTTI time and a reflection time
    of 0.0 the speedup is +infinity, as it is without the guard; with an
    RTTI time of 0.0 the guarded speedup is 1.0 whatever the reflection
    time is. *)
Theorem X9_speedup_guard_misses_divisor
    (rtti_time : double)
    (Hpositive : Double.ltb Double.zero rtti_time = true) :
  TypeAnalysis.working_speedup Double.zero rtti_time = S754_infinity false
  /\ TypeAnalysis.paper_speedup Double.zero rtti_time = S754_infinity false
  /\ (forall (reflection_time : double) (s : bool),
        TypeAnalysis.working_speedup reflection_time (S754_zero s) = lit 1 1).
Proof.
  unfold TypeAnalysis.working_speedup, TypeAnalysis.paper_speedup.
  rewrite Hpositive.
  destruct rtti_time as [s | [] | | [] m e]; try discriminate Hpositive;
    repeat split.
Qed.

Lemma X9_speedup_5ms :
  TypeAnalysis.working_speedup Double.zero (lit 5 1) = S754_infinity false
  /\ TypeAnalysis.paper_speedup Double.zero (lit 5 1) = S754_infinity false
  /\ (forall (reflection_time : double) (s : bool),
        TypeAnalysis.working_speedup reflection_time (S754_zero s) = lit 1 1).
Proof.
  apply (X9_speedup_guard_misses_divisor (lit 5 1)). reflexivity.
Defined.

(** * Compile-time factorials *)

Lemma working_factorial_unfold (N : Z) :
  Factorial.working_factorial N
  = if N <=? 1 then Some 1
    else if 20 <? N then Some (-1)
    else match Factorial.working_factorial (N - 1) with
         | Some r => Factorial.checked_mul Factorial.LLONG_MAX N r
         | None => None
         end.
Proof.
  funelim (Factorial.working_factorial N);
    destruct (Z.leb_spec N 1); destruct (Z.ltb_spec 20 N);
    try lia; reflexivity.
Qed.

Lemma paper_factorial_unfold (N : Z) :
  Factorial.paper_factorial N
  = if N <=? 1 then Some 1
    else match Factorial.paper_factorial (N - 1) with
         | Some r => Factorial.checked_mul Factorial.INT_MAX N r
         | None => None
         end.
Proof.
  funelim (Factorial.paper_factorial N);
    destruct (Z.leb_spec N 1); try lia; reflexivity.
Qed.

(** The guarded factorial of working_reflection_demo.cpp never overflows
    [long long]: it is 1 up to [N = 1], the factorial of [N] up to
    [N = 20] and -1 above.  The guard is exact: 20! fits and 21! does
    not. *)
Theorem X10_working_factorial :
  forall N : Z,
    (N <= 1 -> Factorial.working_factorial N = Some 1)
    /\ (1 < N <= 20 ->
        Factorial.working_factorial N = Some (Factorial.fact (Z.to_nat N)))
    /\ (20 < N -> Factorial.working_factorial N = Some (-1))
    /\ Factorial.fact 20 <= Factorial.LLONG_MAX < Factorial.fact 21.
Proof.
  intros N. split; [| split; [| split]].
  - intros H. rewrite working_factorial_unfold.
    destruct (Z.leb_spec N 1); [reflexivity | lia].
  - intros H.
    assert (E : exists n : nat, (2 <= n <= 20)%nat /\ N = Z.of_nat n)
      by (exists (Z.to_nat N); lia).
    destruct E as (n & Hn & ->). rewrite Nat2Z.id.
    do 21 (destruct n as [| n]; [first [lia | reflexivity] |]). lia.
  - intros H. rewrite working_factorial_unfold.
    destruct (Z.leb_spec N 1); [lia |].
    destruct (Z.ltb_spec 20 N); [reflexivity | lia].
  - split; [apply Z.leb_le | apply Z.ltb_lt]; reflexivity.
Qed.

Lemma paper_factorial_overflows (n : nat) :
  Factorial.paper_factorial (13 + Z.of_nat n) = None.
Proof.
  induction n as [| n IH]; [reflexivity |].
  rewrite paper_factorial_unfold.
  destruct (Z.leb_spec (13 + Z.of_nat (S n)) 1); [lia |].
  replace (13 + Z.of_nat (S n) - 1) with (13 + Z.of_nat n) by lia.
  now rewrite IH.
Qed.

(** The unguarded factorial of mock_reflection_demo.cpp is computed in
    [int]: it is the factorial of [N] up to [N = 12], the largest the
    program instantiates, and for every [N] from 13 on a product leaves the
    range of [int]. *)
Theorem X11_paper_factorial :
  forall N : Z,
    (N <= 1 -> Factorial.paper_factorial N = Some 1)
    /\ (1 < N <= 12 ->
        Factorial.paper_factorial N = Some (Factorial.fact (Z.to_nat N)))
    /\ (12 < N -> Factorial.paper_factorial N = None)
    /\ Factorial.fact 12 <= Factorial.INT_MAX < Factorial.fact 13.
Proof.
  intros N. split; [| split; [| split]].
  - intros H. rewrite paper_factorial_unfold.
    destruct (Z.leb_spec N 1); [reflexivity | lia].
  - intros H.
    assert (E : exists n : nat, (2 <= n <= 12)%nat /\ N = Z.of_nat n)
      by (exists (Z.to_nat N); lia).
    destruct E as (n & Hn & ->). rewrite Nat2Z.id.
    do 13 (destruct n as [| n]; [first [lia | reflexivity] |]). lia.
  - intros H.
    replace N with (13 + Z.of_nat (Z.to_nat (N - 13))) by lia.
    apply paper_factorial_overflows.
  - split; [apply Z.leb_le | apply Z.ltb_lt]; reflexivity.
Qed.

(** * Property binding, continued *)

(** Setting a property to the value it was just set to calls nothing and
    changes nothing, and a setter neither changes nor notifies another
    property: after [set_name] the value setter makes the same calls as
    before it, and the two setters give the same model in either order. *)
Theorem X12_setters_idempotent_and_independent :
  forall (callback : Type) (m : Binding.DataModel callback),
    (forall v : string,
        Binding.set_name (fst (Binding.set_name m v)) v
        = (fst (Binding.set_name m v), []))
    /\ (forall v : Z,
        Binding.set_value (fst (Binding.set_value m v)) v
        = (fst (Binding.set_value m v), []))
    /\ (forall v : bool,
        Binding.set_active (fst (Binding.set_active m v)) v
        = (fst (Binding.set_active m v), []))
    /\ (forall (n : string) (v : Z),
        snd (Binding.set_value (fst (Binding.set_name m n)) v)
        = snd (Binding.set_value m v)
        /\ fst (Binding.set_value (fst (Binding.set_name m n)) v)
           = fst (Binding.set_name (fst (Binding.set_value m v)) n)).
Proof.
  intros callback m. split; [| split; [| split]].
  - intros v. unfold Binding.set_name at 2 3.
    destruct (String.eqb (Binding.name m) v) eqn:E; cbn [negb fst];
      unfold Binding.set_name; cbn [Binding.name].
    + now rewrite E.
    + now rewrite String.eqb_refl.
  - intros v. unfold Binding.set_value at 2 3.
    destruct (Z.eqb (Binding.value m) v) eqn:E; cbn [negb fst];
      unfold Binding.set_value; cbn [Binding.value].
    + now rewrite E.
    + now rewrite Z.eqb_refl.
  - intros v. unfold Binding.set_active at 2 3.
    destruct (Bool.eqb (Binding.active m) v) eqn:E; cbn [negb fst];
      unfold Binding.set_active; cbn [Binding.active].
    + now rewrite E.
    + now rewrite Bool.eqb_reflx.
  - intros n v. unfold Binding.set_name, Binding.set_value.
    destruct (String.eqb (Binding.name m) n) eqn:En;
      cbn [negb fst snd Binding.name Binding.value Binding.active
           Binding.name_changed_callbacks Binding.value_changed_callbacks
           Binding.active_changed_callbacks];
      destruct (Z.eqb (Binding.value m) v) eqn:Ev;
      cbn [negb fst snd Binding.name Binding.value Binding.active
           Binding.name_changed_callbacks Binding.value_changed_callbacks
           Binding.active_changed_callbacks];
      rewrite ?En; cbn [negb fst snd]; split; reflexivity.
Qed.

Lemma rem_2_even (i : nat) : (Z.rem (Z.of_nat i) 2 =? 0) = Nat.even i.
Proof.
  rewrite Z.rem_mod_nonneg by lia.
  destruct (Nat.even i) eqn:E.
  - apply Nat.even_spec in E. destruct E as [k ->]. apply Z.eqb_eq.
    replace (Z.of_nat (2 * k)) with (Z.of_nat k * 2) by lia. apply Z_mod_mult.
  - apply Z.eqb_neq. intros H.
    assert (O : Nat.odd i = true) by (rewrite <- Nat.negb_even, E; reflexivity).
    apply Nat.odd_spec in O. destruct O as [k ->].
    replace (Z.of_nat (2 * k + 1)) with (1 + Z.of_nat k * 2) in H by lia.
    rewrite Z_mod_plus_full in H. discriminate H.
Qed.

Lemma trigger_create_model (i : nat) :
  snd (BindingBenchmark.trigger i (BindingBenchmark.create_model i))
  = calls_of_model i.
Proof.
  unfold BindingBenchmark.trigger, BindingBenchmark.create_model,
    calls_of_model, BindingBenchmark.new_model.
  unfold Binding.set_name, Binding.bind_name_changed, Binding.bind_value_changed,
    Binding.bind_active_changed.
  cbn [Binding.name Binding.value Binding.active Binding.name_changed_callbacks
       Binding.value_changed_callbacks Binding.active_changed_callbacks
       String.eqb append negb app Binding.call_each].
  unfold Binding.set_value.
  cbn [Binding.name Binding.value Binding.active Binding.name_changed_callbacks
       Binding.value_changed_callbacks Binding.active_changed_callbacks].
  replace (0 =? Z.of_nat i * 2) with (Nat.eqb i 0)
    by (destruct i; [reflexivity | symmetry; apply Z.eqb_neq; lia]).
  unfold Binding.set_active. rewrite rem_2_even.
  destruct (Nat.eqb i 0), (Nat.even i); reflexivity.
Qed.

Lemma trigger_loop_models (n : nat) :
  forall start : nat,
    BindingBenchmark.trigger_loop
      (map BindingBenchmark.create_model (seq start n)) start
    = flat_map calls_of_model (seq start n).
Proof.
  induction n as [| n IH]; intros start; [reflexivity |].
  cbn [seq map BindingBenchmark.trigger_loop flat_map].
  now rewrite trigger_create_model, IH.
Qed.

Lemma half_even (k : nat) : ((2 * k) / 2 = k)%nat.
Proof. rewrite Nat.mul_comm. apply Nat.div_mul. lia. Qed.

Lemma half_odd (k : nat) : ((2 * k + 1) / 2 = k)%nat.
Proof.
  replace (2 * k + 1)%nat with (1 + k * 2)%nat by lia.
  rewrite Nat.div_add by lia. reflexivity.
Qed.

Lemma calls_total (n : nat) :
  List.length (flat_map calls_of_model (seq 0 n))
  = (n + (n - 1) + (n + 1) / 2)%nat.
Proof.
  induction n as [| n IH]; [reflexivity |].
  rewrite seq_S, flat_map_app, length_app, IH. cbn [flat_map Nat.add].
  rewrite app_nil_r. unfold calls_of_model. rewrite !length_app. clear IH.
  destruct (Nat.even n) eqn:E.
  - apply Nat.even_spec in E. destruct E as [k ->].
    replace (S (2 * k + 1)) with (2 * (k + 1))%nat by lia.
    rewrite half_odd, half_even.
    destruct (Nat.eqb_spec (2 * k) 0); cbn [List.length]; lia.
  - assert (O : Nat.odd n = true) by (rewrite <- Nat.negb_even, E; reflexivity).
    apply Nat.odd_spec in O. destruct O as [k ->].
    replace (S (2 * k + 1 + 1)) with (2 * (k + 1) + 1)%nat by lia.
    replace (2 * k + 1 + 1)%nat with (2 * (k + 1))%nat by lia.
    rewrite half_odd, half_even.
    destruct (Nat.eqb_spec (2 * k + 1) 0); cbn [List.length]; lia.
Qed.

(** In the binding benchmark the timed loop calls three setters per
    model, and not every call changes a value: model [i] calls its name
    callback, its value callback unless [i] is 0 (the value 0 is set to 0),
    and its active callback only for an even [i] (an odd model is set to
    not active, which it is).  With [n] models, [n + (n - 1) + (n + 1) / 2]
    callbacks run, fewer than the [3 * n] updates the benchmark reports. *)
Theorem X13_binding_benchmark_calls :
  forall n : nat,
    BindingBenchmark.benchmark_binding n = flat_map calls_of_model (seq 0 n)
    /\ List.length (BindingBenchmark.benchmark_binding n)
       = (n + (n - 1) + (n + 1) / 2)%nat
    /\ (List.length (BindingBenchmark.benchmark_binding (S n))
        < BindingBenchmark.reported_updates (S n))%nat.
Proof.
  intros n. unfold BindingBenchmark.benchmark_binding.
  rewrite !trigger_loop_models, !calls_total.
  split; [reflexivity |]. split; [reflexivity |].
  unfold BindingBenchmark.reported_updates.
  destruct (Nat.even n) eqn:E.
  - apply Nat.even_spec in E. destruct E as [k ->].
    replace (S (2 * k) + 1)%nat with (2 * (k + 1))%nat by lia.
    rewrite half_even. lia.
  - assert (O : Nat.odd n = true) by (rewrite <- Nat.negb_even, E; reflexivity).
    apply Nat.odd_spec in O. destruct O as [k ->].
    replace (S (2 * k + 1) + 1)%nat with (2 * (k + 1) + 1)%nat by lia.
    rewrite half_odd. lia.
Qed.

(** * The observable subject *)

Lemma notify_each_trace (observer : Type) (observers : list observer)
    (state : string) :
  forall trace : list (observer * string),
    Pattern.notify_each observers state trace
    = (trace ++ map (fun o => (o, state)) observers)%list.
Proof.
  induction observers as [| o rest IH]; intros trace; simpl.
  - now rewrite app_nil_r.
  - rewrite IH, <- app_assoc. reflexivity.
Qed.

(** [remove_observer] checks its index: an index past the end leaves the
    subject as it is; an index inside removes exactly that observer, the
    state and the order of the others are kept, the observers before the
    index keep their place and those after it move down by one.  Removing
    the observer that was just added gives the subject back. *)
Theorem X14_remove_observer :
  forall (observer : Type) (s : Pattern.Subject observer) (index : nat),
    ((List.length (Pattern.observers_ s) <= index)%nat ->
       Pattern.remove_observer s index = s)
    /\ ((index < List.length (Pattern.observers_ s))%nat ->
        Pattern.state_ (Pattern.remove_observer s index) = Pattern.state_ s
        /\ S (List.length (Pattern.observers_ (Pattern.remove_observer s index)))
           = List.length (Pattern.observers_ s)
        /\ (forall j : nat, (j < index)%nat ->
              nth_error (Pattern.observers_ (Pattern.remove_observer s index)) j
              = nth_error (Pattern.observers_ s) j)
        /\ (forall j : nat, (index <= j)%nat ->
              nth_error (Pattern.observers_ (Pattern.remove_observer s index)) j
              = nth_error (Pattern.observers_ s) (S j)))
    /\ (forall o : observer,
        Pattern.remove_observer (Pattern.add_observer s o)
          (List.length (Pattern.observers_ s)) = s).
Proof.
  intros observer s index. split; [| split].
  - intros H. unfold Pattern.remove_observer.
    destruct (Nat.ltb_spec index (List.length (Pattern.observers_ s)));
      [lia | reflexivity].
  - intros H. unfold Pattern.remove_observer.
    destruct (Nat.ltb_spec index (List.length (Pattern.observers_ s)));
      [| lia].
    cbn [Pattern.state_ Pattern.observers_]. unfold Pattern.erase_at.
    split; [reflexivity |]. split; [| split].
    + rewrite length_app, length_firstn, length_skipn. lia.
    + intros j Hj. rewrite nth_error_app1 by (rewrite length_firstn; lia).
      rewrite nth_error_firstn.
      destruct (Nat.ltb_spec j index); [reflexivity | lia].
    + intros j Hj.
      rewrite nth_error_app2 by (rewrite length_firstn; lia).
      rewrite length_firstn, nth_error_skipn. f_equal. lia.
  - intros o. unfold Pattern.remove_observer, Pattern.add_observer.
    cbn [Pattern.state_ Pattern.observers_]. rewrite length_app. simpl List.length.
    destruct (Nat.ltb_spec (List.length (Pattern.observers_ s))
                (List.length (Pattern.observers_ s) + 1)); [| lia].
    unfold Pattern.erase_at.
    rewrite firstn_app, Nat.sub_diag, firstn_all. simpl firstn.
    rewrite skipn_all2 by (rewrite length_app; simpl; lia).
    rewrite !app_nil_r. destruct s; reflexivity.
Qed.

Lemma add_observer_all (observer : Type) (added : list observer) :
  forall s : Pattern.Subject observer,
    Pattern.observers_ (fold_left Pattern.add_observer added s)
    = (Pattern.observers_ s ++ added)%list.
Proof.
  induction added as [| o added IH]; intros s; simpl.
  - now rewrite app_nil_r.
  - rewrite IH. cbn [Pattern.add_observer Pattern.observers_].
    now rewrite <- app_assoc.
Qed.

(** [set_state] with a new state stores it and calls every observer once,
    in the order they were added, each with the new state; with the stored
    state it calls nobody, so setting a state twice notifies once.
    [add_observer] appends. *)
Theorem X15_set_state_notifies :
  forall (observer : Type) (s : Pattern.Subject observer) (new_state : string),
    (Pattern.state_ s = new_state -> Pattern.set_state s new_state = (s, []))
    /\ (Pattern.state_ s <> new_state ->
        Pattern.set_state s new_state
        = (Pattern.mk_Subject new_state (Pattern.observers_ s),
           map (fun o => (o, new_state)) (Pattern.observers_ s)))
    /\ Pattern.get_state (fst (Pattern.set_state s new_state)) = new_state
    /\ Pattern.set_state (fst (Pattern.set_state s new_state)) new_state
       = (fst (Pattern.set_state s new_state), [])
    /\ (forall added : list observer,
        Pattern.observers_ (fold_left Pattern.add_observer added s)
        = (Pattern.observers_ s ++ added)%list).
Proof.
  intros observer s new_state.
  assert (Same : Pattern.state_ s = new_state ->
                 Pattern.set_state s new_state = (s, [])).
  { intros H. unfold Pattern.set_state. apply String.eqb_eq in H. now rewrite H. }
  assert (Differ : Pattern.state_ s <> new_state ->
                   Pattern.set_state s new_state
                   = (Pattern.mk_Subject new_state (Pattern.observers_ s),
                      map (fun o => (o, new_state)) (Pattern.observers_ s))).
  { intros H. unfold Pattern.set_state, Pattern.notify_observers.
    apply String.eqb_neq in H. rewrite H. cbn [negb Pattern.observers_ Pattern.state_].
    now rewrite notify_each_trace. }
  split; [exact Same |]. split; [exact Differ |].
  split; [| split; [| intros added; apply add_observer_all]].
  - destruct (string_dec (Pattern.state_ s) new_state) as [E | N].
    + now rewrite (Same E).
    + now rewrite (Differ N).
  - destruct (string_dec (Pattern.state_ s) new_state) as [E | N].
    + rewrite (Same E). exact (Same E).
    + rewrite (Differ N). cbn [fst]. unfold Pattern.set_state.
      cbn [Pattern.state_]. now rewrite String.eqb_refl.
Qed.

(** * Containers *)

Section ContainerLoops.

Variable T : Type.
Variable serialize_element : ostringstream -> T -> ostringstream.
Variable text : T -> string.
Hypothesis serialize_element_default :
  forall (b : string) (x : T),
    serialize_element (mk_ostringstream ff_none 6 b) x
    = mk_ostringstream ff_none 6 (b ++ text x).

Lemma traditional_loop_buf (rest : list T) :
  forall (i : nat) (b : string),
    Container.traditional_loop serialize_element rest i (mk_ostringstream ff_none 6 b)
    = mk_ostringstream ff_none 6 (b ++ loop_text i (map text rest)).
Proof.
  induction rest as [| x rest IH]; intros i b.
  - simpl. now rewrite append_nil_r.
  - cbn [Container.traditional_loop map]. unfold loop_text at 1.
    rewrite concat_cons.
    destruct (Nat.ltb 0 i); rewrite ?insert_string_mk, serialize_element_default,
      IH, loop_text_S; cbn [append]; repeat rewrite append_assoc; reflexivity.
Qed.

Lemma traditional_serialize_text (data_ : list T) :
  Container.traditional_serialize serialize_element data_
  = sequence_text (map text data_).
Proof.
  unfold Container.traditional_serialize, fresh, str, sequence_text.
  rewrite insert_string_mk, traditional_loop_buf, insert_string_mk, loop_text_0.
  cbn [os_buf append]. rewrite ?append_assoc. reflexivity.
Qed.

Lemma reflection_loop_text (rest : list T) :
  forall (i : nat) (result : string),
    Container.reflection_loop text rest i result
    = result ++ loop_text i (map text rest).
Proof.
  induction rest as [| x rest IH]; intros i result.
  - simpl. now rewrite append_nil_r.
  - cbn [Container.reflection_loop map]. unfold loop_text at 1.
    rewrite concat_cons.
    destruct (Nat.ltb 0 i); rewrite IH, loop_text_S; cbn [append];
      repeat rewrite append_assoc; reflexivity.
Qed.

Lemma reflection_serialize_text (data_ : list T) :
  Container.reflection_serialize text data_ = sequence_text (map text data_).
Proof.
  unfold Container.reflection_serialize, sequence_text.
  rewrite reflection_loop_text, loop_text_0. cbn [append].
  rewrite ?append_assoc. reflexivity.
Qed.

End ContainerLoops.

Lemma traditional_string_loop_buf (rest : list string) :
  forall (i : nat) (b : string),
    Container.traditional_string_loop rest i (mk_ostringstream ff_none 6 b)
    = mk_ostringstream ff_none 6
        (b ++ loop_text i (map (fun _ => Container.traditional_string_literal) rest)).
Proof.
  induction rest as [| x rest IH]; intros i b.
  - simpl. now rewrite append_nil_r.
  - cbn [Container.traditional_string_loop map]. unfold loop_text at 1.
    rewrite concat_cons.
    destruct (Nat.ltb 0 i); rewrite ?insert_string_mk, IH, loop_text_S;
      cbn [append]; repeat rewrite append_assoc; reflexivity.
Qed.

Lemma map_constant (A B : Type) (c : B) (l : list A) :
  map (fun _ => c) l = repeat c (List.length l).
Proof. induction l as [| x l IH]; simpl; [reflexivity | now rewrite IH]. Qed.

(** A container of integers is written the same by the two programs: the
    decimal numbers joined by commas between brackets, the bracket pair
    alone when it is empty; [add] appends one element.  Containers of
    [double] are written differently: [operator<<] gives [%.6g] and
    [std::to_string] gives [%f] with six decimals. *)
Theorem X16_int_containers_agree :
  (forall data_ : list Z,
      Container.traditional_serialize_int data_
        = sequence_text (map Printf.int_string data_)
      /\ Container.reflection_serialize_int data_
        = Container.traditional_serialize_int data_)
  /\ Container.traditional_serialize_int [] = "[]"
  /\ (forall (data_ : list Z) (item : Z),
      Container.size (Container.add data_ item) = S (Container.size data_)
      /\ Container.traditional_serialize_int (Container.add data_ item)
         = sequence_text (map Printf.int_string data_ ++ [Printf.int_string item]))
  /\ (forall data_ : list double,
      Container.traditional_serialize_double data_
        = sequence_text (map (Printf.general 6) data_)
      /\ Container.reflection_serialize_double data_
        = sequence_text (map (Printf.fixed 6) data_))
  /\ Container.traditional_serialize_double [lit 314 100] = "[3.14]"
  /\ Container.reflection_serialize_double [lit 314 100] = "[3.140000]".
Proof.
  assert (I : forall data_ : list Z,
               Container.traditional_serialize_int data_
               = sequence_text (map Printf.int_string data_)).
  { intros data_. unfold Container.traditional_serialize_int.
    apply traditional_serialize_text. intros b x. reflexivity. }
  split; [| split; [| split; [| split]]].
  - intros data_. split; [apply I |].
    rewrite I. unfold Container.reflection_serialize_int.
    apply reflection_serialize_text.
  - reflexivity.
  - intros data_ item. split.
    + unfold Container.size, Container.add. rewrite length_app. simpl. lia.
    + rewrite I. unfold Container.add. now rewrite map_app.
  - intros data_. split.
    + unfold Container.traditional_serialize_double.
      apply traditional_serialize_text. intros b x. reflexivity.
    + unfold Container.reflection_serialize_double.
      apply reflection_serialize_text.
  - split; vm_compute; reflexivity.
Qed.

(** A container of strings is written without its strings.  For every
    element both programs insert the text that stands between the tripled
    quotation marks of the source, so the text written depends on the
    number of elements only: two containers with the same number of
    strings are written the same. *)
Theorem X17_string_containers_ignore_elements :
  forall data_ other : list string,
    Container.traditional_serialize_string data_
      = sequence_text (repeat Container.traditional_string_literal (List.length data_))
    /\ Container.reflection_serialize_string data_
      = sequence_text (repeat Container.reflection_string_literal (List.length data_))
    /\ (List.length data_ = List.length other ->
        Container.traditional_serialize_string data_
          = Container.traditional_serialize_string other
        /\ Container.reflection_serialize_string data_
          = Container.reflection_serialize_string other).
Proof.
  assert (Tr : forall d : list string,
               Container.traditional_serialize_string d
               = sequence_text
                   (repeat Container.traditional_string_literal (List.length d))).
  { intros d. unfold Container.traditional_serialize_string, fresh, str, sequence_text.
    rewrite insert_string_mk, traditional_string_loop_buf, insert_string_mk,
      loop_text_0, map_constant.
    cbn [os_buf append]. rewrite ?append_assoc. reflexivity. }
  assert (Re : forall d : list string,
               Container.reflection_serialize_string d
               = sequence_text
                   (repeat Container.reflection_string_literal (List.length d))).
  { intros d. unfold Container.reflection_serialize_string.
    rewrite reflection_serialize_text. now rewrite map_constant. }
  intros data_ other. split; [apply Tr |]. split; [apply Re |].
  intros H. rewrite !Tr, !Re, H. split; reflexivity.
Qed.
